(** * llama-stream: the reverse proxy that replays a complete chat completion
      as a simulated event stream

    A shallow embedding of [src/llama-stream.py]: the JSON values the handler
    manipulates, the Python operations it applies to them (with the exceptions
    they raise), the generator [_simulate_streaming], the forwarder
    [_perform_request] and the handler [do_POST], followed by the properties
    of the specification that concern them. *)

From Stdlib Require Import ZArith List String Ascii Bool Lia PrimFloat.
Import ListNotations.
Local Open Scope string_scope.
Local Open Scope list_scope.
Local Open Scope Z_scope.

(** ** Python values *)

(** A Python [str] is a sequence of Unicode code points; [len] and slicing
    count code points, so the code points are kept as numbers. *)
Definition str := list N.

(** A string literal of the source, as a [str]. *)
Definition lit (s : string) : str := map N_of_ascii (list_ascii_of_string s).

Fixpoint str_eqb (a b : str) : bool :=
  match a, b with
  | [], [] => true
  | x :: a', y :: b' => N.eqb x y && str_eqb a' b'
  | _, _ => false
  end.

(** What [json.loads] and [response.json()] return: [None], a [bool], an
    [int] (unbounded), a [float], a [str], a [list] or a [dict].  A [dict]
    keeps its items in insertion order; [JObj] lists them in that order and a
    lookup takes the first item with the key. *)
#[warnings="-register-all"]
Inductive json : Type :=
| JNull
| JBool (b : bool)
| JInt (n : Z)
| JFloat (f : float)
| JStr (s : str)
| JArr (l : list json)
| JObj (kv : list (str * json)).

(** The exceptions the modelled code can raise on its own. *)
Inductive exn : Type :=
| TypeError
| ValueError
| AttributeError
| KeyError
| IndexError
| UnicodeDecodeError
| RecursionError.

(** A computation that either returns or raises. *)
Inductive res (A : Type) : Type :=
| Ret (a : A)
| Raise (e : exn).
Arguments Ret {A} a.
Arguments Raise {A} e.

Definition res_bind {A B : Type} (m : res A) (k : A -> res B) : res B :=
  match m with
  | Ret a => k a
  | Raise e => Raise e
  end.

Declare Scope res_scope.
Delimit Scope res_scope with res.
Notation "x <- m ;; k" := (res_bind m (fun x => k))
  (at level 61, m at next level, right associativity) : res_scope.

(** [bool(v)]: the truth value the conditions [if tool_calls:] and
    [elif content:] test. *)
Definition truthy (v : json) : bool :=
  match v with
  | JNull => false
  | JBool b => b
  | JInt n => negb (n =? 0)
  | JFloat f => negb (PrimFloat.eqb f PrimFloat.zero)
  | JStr s => match s with [] => false | _ => true end
  | JArr l => match l with [] => false | _ => true end
  | JObj kv => match kv with [] => false | _ => true end
  end.

Fixpoint lookup (k : str) (kv : list (str * json)) : option json :=
  match kv with
  | [] => None
  | (k', v) :: rest => if str_eqb k k' then Some v else lookup k rest
  end.

(** [d.get(k, default)]: only a [dict] has the method. *)
Definition dict_get (d : json) (k : str) (default : json) : res json :=
  match d with
  | JObj kv => Ret (match lookup k kv with Some v => v | None => default end)
  | _ => Raise AttributeError
  end.

(** [s] occurs in [t] as a contiguous run: [s in t] on two [str]. *)
Fixpoint is_prefix (s t : str) : bool :=
  match s, t with
  | [], _ => true
  | x :: s', y :: t' => N.eqb x y && is_prefix s' t'
  | _ :: _, [] => false
  end.

Fixpoint is_infix (s t : str) : bool :=
  is_prefix s t || match t with [] => false | _ :: t' => is_infix s t' end.

(** [k in v] for a [str] [k]: key membership on a [dict], element membership
    on a [list] (only an equal [str] compares equal to a [str]), substring on
    a [str]; the other values are not iterable. *)
Definition py_in (k : str) (v : json) : res bool :=
  match v with
  | JObj kv => Ret (match lookup k kv with Some _ => true | None => false end)
  | JArr l => Ret (existsb (fun x => match x with JStr s => str_eqb s k | _ => false end) l)
  | JStr s => Ret (is_infix k s)
  | _ => Raise TypeError
  end.

(** [v[k]] for a [str] [k]. *)
Definition getitem (v : json) (k : str) : res json :=
  match v with
  | JObj kv => match lookup k kv with Some x => Ret x | None => Raise KeyError end
  | _ => Raise TypeError
  end.

(** [v[0]]. *)
Definition getitem_0 (v : json) : res json :=
  match v with
  | JArr (x :: _) => Ret x
  | JArr [] => Raise IndexError
  | JStr (c :: _) => Ret (JStr [c])
  | JStr [] => Raise IndexError
  | JObj _ => Raise KeyError
  | _ => Raise TypeError
  end.

(** [len(v)]. *)
Definition py_len (v : json) : res Z :=
  match v with
  | JStr s => Ret (Z.of_nat (List.length s))
  | JArr l => Ret (Z.of_nat (List.length l))
  | JObj kv => Ret (Z.of_nat (List.length kv))
  | _ => Raise TypeError
  end.

(** A slice bound brought into [0 .. len], negative bounds counting from the
    end. *)
Definition clamp_index (len i : Z) : Z :=
  if i <? 0 then Z.max 0 (i + len) else Z.min i len.

(** [l[lo:hi]] on a sequence. *)
Definition slice {A : Type} (l : list A) (lo hi : Z) : list A :=
  let len := Z.of_nat (List.length l) in
  let lo' := clamp_index len lo in
  let hi' := clamp_index len hi in
  firstn (Z.to_nat (hi' - lo')) (skipn (Z.to_nat lo') l).

(** [v[lo:hi]]: a [str] and a [list] are sliced; a [dict] takes the slice for
    a key and raises ([TypeError] before Python 3.12, [KeyError] since). *)
Definition getslice (v : json) (lo hi : Z) : res json :=
  match v with
  | JStr s => Ret (JStr (slice s lo hi))
  | JArr l => Ret (JArr (slice l lo hi))
  | _ => Raise TypeError
  end.

(** [range(start, stop, step)], listed: the loop runs while the index has
    not reached [stop]; [fuel] bounds the number of indices, and
    [|stop - start|] is enough since the step is at least one in size. *)
Fixpoint range_loop (fuel : nat) (i stop step : Z) : list Z :=
  match fuel with
  | O => []
  | S fuel' =>
      if (if 0 <? step then i <? stop else stop <? i)
      then i :: range_loop fuel' (i + step) stop step
      else []
  end.

Definition py_range (start stop step : Z) : res (list Z) :=
  if step =? 0 then Raise ValueError
  else Ret (range_loop (Z.to_nat (Z.abs (stop - start))) start stop step).

(** ** The world of one request

    What a run of the handler reads and writes outside its own values: the
    clock, and the connection to the client together with the calls made on
    the backend, recorded in order. *)

(** The handler's configuration, [self.config]: the keys it reads, each
    absent ([None]) or set.  [verify_ssl] is a boolean or a string. *)
Record config : Type := {
  cfg_target_url : option string;
  cfg_verify_ssl : option (bool + string);
  cfg_request_timeout : option Z;
  cfg_streaming_chunk_size : option Z
}.

(** [verify] as handed to [requests]: a boolean or the path of a CA bundle. *)
Inductive verify : Type :=
| VerifyBool (b : bool)
| VerifyBundle (path : string).

(** One outbound call of [requests.request]. *)
Record backend_call : Type := {
  bc_method : string;
  bc_url : string;
  bc_headers : list (string * string);
  bc_data : option string;
  bc_json : option json;
  bc_verify : verify;
  bc_timeout : option Z
}.

(** What happens on the client's connection and towards the backend. *)
Inductive event : Type :=
| RfileRead (n : Z)
| RequestsRequest (c : backend_call)
| SendResponse (code : Z)
| SendHeader (key value : string)
| EndHeaders
| SendError (code : Z) (message : string)
| Write (data : string)
| Flush.

(** [clock n] is what the [n]-th coming call of [int(time.time())] returns;
    [trace] lists the events so far, oldest first. *)
Record world : Type := {
  clock : nat -> Z;
  trace : list event
}.

(** A computation in the world: it returns or raises, and leaves a world. *)
Definition M (A : Type) : Type := world -> res A * world.

Definition ret {A : Type} (a : A) : M A := fun w => (Ret a, w).

Definition raise {A : Type} (e : exn) : M A := fun w => (Raise e, w).

Definition bind {A B : Type} (m : M A) (k : A -> M B) : M B :=
  fun w =>
    match m w with
    | (Ret a, w') => k a w'
    | (Raise e, w') => (Raise e, w')
    end.

Definition lift {A : Type} (r : res A) : M A := fun w => (r, w).

Declare Scope M_scope.
Delimit Scope M_scope with M.
Notation "x <- m ;; k" := (bind m (fun x => k))
  (at level 61, m at next level, right associativity) : M_scope.
Notation "m ;;; k" := (bind m (fun _ => k))
  (at level 61, right associativity) : M_scope.

(** [int(time.time())]. *)
Definition time_time : M Z :=
  fun w => (Ret (clock w 0%nat),
            {| clock := fun n => clock w (S n); trace := trace w |}).

Definition emit (e : event) : M unit :=
  fun w => (Ret tt, {| clock := clock w; trace := trace w ++ [e] |}).

(** ** The emitter: [_simulate_streaming] *)

(** The condition of line 183:
    ["choices" in response_data and isinstance(response_data["choices"], list)
     and response_data["choices"]]. *)
Definition has_choices (response_data : json) : res bool :=
  (present <- py_in (lit "choices") response_data ;;
   if present then
     choices <- getitem response_data (lit "choices") ;;
     Ret (match choices with JArr _ => truthy choices | _ => false end)
   else Ret false)%res.

(** The one element of every chunk's ["choices"]. *)
Definition choice_of (delta finish_reason : json) : json :=
  JObj [(lit "index", JInt 0); (lit "delta", delta);
        (lit "finish_reason", finish_reason)].

(** [{**base_event_data, "choices": [...]}]: the base has no ["choices"]
    key, so the new item comes last. *)
Definition chunk_of (base_event_data : list (str * json)) (delta finish_reason : json) : json :=
  JObj (base_event_data ++ [(lit "choices", JArr [choice_of delta finish_reason])]).

(** Line 222: the delta of the text chunk at index [i]; only the first
    names the role. *)
Definition text_delta (i : Z) (text_chunk : json) : json :=
  if i =? 0
  then JObj [(lit "role", JStr (lit "assistant")); (lit "content", text_chunk)]
  else JObj [(lit "content", text_chunk)].

(** The loop of lines 215-226 over the indices of the range. *)
Fixpoint content_chunks (base_event_data : list (str * json)) (content : json)
    (streaming_chunk_size : Z) (indices : list Z) : res (list json) :=
  match indices with
  | [] => Ret []
  | i :: rest =>
      (text_chunk <- getslice content i (i + streaming_chunk_size) ;;
       later <- content_chunks base_event_data content streaming_chunk_size rest ;;
       Ret (chunk_of base_event_data (text_delta i text_chunk) JNull :: later))%res
  end.

(** [self.config.get("streaming_chunk_size", 50)]. *)
Definition streaming_chunk_size_of (self_config : config) : Z :=
  match cfg_streaming_chunk_size self_config with
  | Some n => n
  | None => 50
  end.

(** Lines 189-195: the four keys every chunk of a usable completion starts
    with; [now] is what [int(time.time())] returned. *)
Definition base_event_data_of (response_data : json) (now : Z) : res (list (str * json)) :=
  (id <- dict_get response_data (lit "id") (JStr (lit "chatcmpl-default-id")) ;;
   object <- dict_get response_data (lit "object") (JStr (lit "chat.completion.chunk")) ;;
   created <- dict_get response_data (lit "created") (JInt now) ;;
   model <- dict_get response_data (lit "model") (JStr (lit "gpt-3.5-turbo-0613")) ;;
   Ret [(lit "id", id); (lit "object", object); (lit "created", created);
        (lit "model", model)])%res.

(** Lines 197-248: the three branches on [tool_calls] and [content]. *)
Definition branch_chunks (base_event_data : list (str * json)) (tool_calls content : json)
    (streaming_chunk_size : Z) : res (list json) :=
  if truthy tool_calls then
    Ret [chunk_of base_event_data
           (JObj [(lit "role", JStr (lit "assistant")); (lit "content", JNull);
                  (lit "tool_calls", tool_calls)])
           (JStr (lit "tool_calls"))]
  else if truthy content then
    (len <- py_len content ;;
     indices <- py_range 0 len streaming_chunk_size ;;
     texts <- content_chunks base_event_data content streaming_chunk_size indices ;;
     Ret (texts ++ [chunk_of base_event_data (JObj []) (JStr (lit "stop"))]))%res
  else
    Ret [chunk_of base_event_data (JObj []) (JStr (lit "stop"))].

(** Lines 252-265: one of the two chunks of the branch taken when there is
    no usable ["choices"]; each reads the clock for itself. *)
Definition wrapper_chunk (response_data delta finish_reason : json) : M json :=
  (id <- lift (dict_get response_data (lit "id") (JStr (lit "chatcmpl-default-id"))) ;;
   now <- time_time ;;
   ret (JObj [(lit "id", id); (lit "object", JStr (lit "chat.completion.chunk"));
              (lit "created", JInt now); (lit "model", JStr (lit "unknown-model"));
              (lit "choices", JArr [choice_of delta finish_reason])]))%M.

Section Emitter.

(** [json.dumps], of the standard library; with its defaults the text it
    returns is ASCII. *)
Variable json_dumps : json -> string.

(** The generator, run to its end: the chunks it yields, in order.  Every
    exception it can raise comes before its first [yield], so a run either
    raises with nothing yielded or yields the whole list. *)
Definition _simulate_streaming (self_config : config) (response_data : json) : M (list json) :=
  (let streaming_chunk_size := streaming_chunk_size_of self_config in
   usable <- lift (has_choices response_data) ;;
   if usable then
     choices <- lift (getitem response_data (lit "choices")) ;;
     choice <- lift (getitem_0 choices) ;;
     message <- lift (dict_get choice (lit "message") (JObj [])) ;;
     content <- lift (dict_get message (lit "content") (JStr [])) ;;
     tool_calls <- lift (dict_get message (lit "tool_calls") JNull) ;;
     now <- time_time ;;
     base_event_data <- lift (base_event_data_of response_data now) ;;
     lift (branch_chunks base_event_data tool_calls content streaming_chunk_size)
   else
     first <- wrapper_chunk response_data
                (JObj [(lit "content", JStr (lit (json_dumps response_data)))]) JNull ;;
     second <- wrapper_chunk response_data (JObj []) (JStr (lit "stop")) ;;
     ret [first; second])%M.

End Emitter.

(** ** Reading a chunk *)

(** [v[k]] when [v] is a [dict] with the key. *)
Definition field (k : string) (v : json) : option json :=
  match v with
  | JObj kv => lookup (lit k) kv
  | _ => None
  end.

(** [chunk["choices"][0][k]]. *)
Definition choice_field (k : string) (chunk : json) : option json :=
  match field "choices" chunk with
  | Some (JArr (c :: _)) => field k c
  | _ => None
  end.

Definition finish_reason (chunk : json) : option json := choice_field "finish_reason" chunk.

Definition delta (chunk : json) : option json := choice_field "delta" chunk.

(** [chunk["choices"][0]["delta"]["content"]]. *)
Definition delta_content (chunk : json) : option json :=
  match delta chunk with
  | Some d => field "content" d
  | None => None
  end.

(** [ceil(a / b)] for a positive [b]. *)
Definition ceil_div (a b : Z) : Z := (a + b - 1) / b.

(** A chunk's text: the [str] under [delta.content], nothing when the delta
    has none. *)
Definition content_text (chunk : json) : str :=
  match delta_content chunk with
  | Some (JStr t) => t
  | _ => []
  end.

(** [d.get(k, default)] on a [dict] [d]. *)
Definition get_or (k : string) (d default : json) : json :=
  match field k d with
  | Some v => v
  | None => default
  end.

(** The world after one reading of the clock. *)
Definition tick (w : world) : world :=
  {| clock := fun n => clock w (S n); trace := trace w |}.

(** [base_event_data] of a [dict], written out. *)
Definition base_at (response_data : json) (now : Z) : list (str * json) :=
  [(lit "id", get_or "id" response_data (JStr (lit "chatcmpl-default-id")));
   (lit "object", get_or "object" response_data (JStr (lit "chat.completion.chunk")));
   (lit "created", get_or "created" response_data (JInt now));
   (lit "model", get_or "model" response_data (JStr (lit "gpt-3.5-turbo-0613")))].

(** A chunk of lines 252-265, written out. *)
Definition wrapper_at (response_data : json) (now : Z) (delta finish_reason : json) : json :=
  JObj [(lit "id", get_or "id" response_data (JStr (lit "chatcmpl-default-id")));
        (lit "object", JStr (lit "chat.completion.chunk"));
        (lit "created", JInt now);
        (lit "model", JStr (lit "unknown-model"));
        (lit "choices", JArr [choice_of delta finish_reason])].

(** [message.get("tool_calls", None)] of the first choice, as lines 184-187
    reach it. *)
Definition tool_calls_of (response_data : json) : res json :=
  (choices <- getitem response_data (lit "choices") ;;
   choice <- getitem_0 choices ;;
   message <- dict_get choice (lit "message") (JObj []) ;;
   dict_get message (lit "tool_calls") JNull)%res.

(** The run takes the branch of line 197. *)
Definition takes_tool_call_branch (response_data : json) : bool :=
  match has_choices response_data with
  | Ret true =>
      match tool_calls_of response_data with
      | Ret tool_calls => truthy tool_calls
      | Raise _ => false
      end
  | _ => false
  end.

(** The shape the specification gives a completion (data model): a [dict]
    whose ["choices"], when it is a non-empty list, starts with a [dict]
    whose ["message"], when present, is a [dict] with ["content"] a [str],
    [None] or absent.  A [dict] with no usable ["choices"] is the case the
    emitter wraps as it is. *)
Definition is_message (m : json) : bool :=
  match m with
  | JObj kv =>
      match lookup (lit "content") kv with
      | None | Some JNull | Some (JStr _) => true
      | Some _ => false
      end
  | _ => false
  end.

Definition is_choice (c : json) : bool :=
  match c with
  | JObj kv =>
      match lookup (lit "message") kv with
      | None => true
      | Some m => is_message m
      end
  | _ => false
  end.

Definition is_chat_completion (response_data : json) : bool :=
  match response_data with
  | JObj kv =>
      match lookup (lit "choices") kv with
      | Some (JArr (c :: _)) => is_choice c
      | _ => true
      end
  | _ => false
  end.

(** ** Values of the examples *)

(** A stand-in for [json.dumps] in the examples below, none of which looks
    at the serialised text. *)
Definition const_dumps : json -> string := fun _ => "{}".

(** A clock that starts at [t] and advances a second per reading. *)
Definition world_at (t : Z) : world :=
  {| clock := fun n => t + Z.of_nat n; trace := [] |}.

Definition config_with_chunk_size (n : option Z) : config :=
  {| cfg_target_url := None; cfg_verify_ssl := None; cfg_request_timeout := None;
     cfg_streaming_chunk_size := n |}.

(** A completion with one choice holding the message [message]. *)
Definition completion_of (top : list (str * json)) (message : list (str * json)) : json :=
  JObj (top ++ [(lit "choices", JArr [JObj [(lit "index", JInt 0);
                                          (lit "message", JObj message)]])]).

Definition hello_completion : json :=
  completion_of [(lit "id", JStr (lit "chatcmpl-1")); (lit "object", JStr (lit "chat.completion"));
                 (lit "created", JInt 1700000000); (lit "model", JStr (lit "llama"))]
    [(lit "role", JStr (lit "assistant")); (lit "content", JStr (lit "Hello, world!"))].

Definition a_tool_call : json :=
  JObj [(lit "id", JStr (lit "call_1")); (lit "type", JStr (lit "function"))].

Definition tool_completion : json :=
  completion_of [(lit "id", JStr (lit "chatcmpl-2"))]
    [(lit "role", JStr (lit "assistant")); (lit "content", JStr (lit "Hi"));
     (lit "tool_calls", JArr [a_tool_call])].

(** ** The forwarder and the handler *)

(** HTTP header names and values, and the words of the configuration, are
    Latin-1 text: a [string], one character each. *)

(** [c.lower()] on the ASCII letters, which decides every comparison below
    with an ASCII word. *)
Definition lower_ascii (c : ascii) : ascii :=
  let n := nat_of_ascii c in
  if (65 <=? n)%nat && (n <=? 90)%nat then ascii_of_nat (n + 32) else c.

Fixpoint lower (s : string) : string :=
  match s with
  | EmptyString => EmptyString
  | String c s' => String (lower_ascii c) (lower s')
  end.

(** [headers.get(name)] on a message whose names compare without case;
    [self.headers[name]] is the same and gives [None] for a missing name. *)
Fixpoint header_get (headers : list (string * string)) (name : string) : option string :=
  match headers with
  | [] => None
  | (k, v) :: rest =>
      if String.eqb (lower k) (lower name) then Some v else header_get rest name
  end.

Definition header_get_or (headers : list (string * string)) (name default : string) : string :=
  match header_get headers name with
  | Some v => v
  | None => default
  end.

(** The inbound request as the handler reads it; [rfile] holds the bytes
    the client sends after the headers. *)
Record request : Type := {
  path : string;
  headers : list (string * string);
  rfile : string
}.

(** A [requests.Response]: status, headers and the body bytes. *)
Record response : Type := {
  status_code : Z;
  response_headers : list (string * string);
  content : string
}.

(** The exceptions of [requests.exceptions] that a call can raise, by class:
    [SSLError] and [ProxyError] derive from [ConnectionError], [ReadTimeout]
    from [Timeout], and [ConnectTimeout] from both [ConnectionError] and
    [Timeout]; [OtherException] stands for any other [Exception]. *)
Inductive requests_class : Type :=
| SSLError
| ProxyError
| ConnectTimeout
| ConnectionError
| ReadTimeout
| Timeout
| OtherException.

(** A raised exception: its class and [str(e)]. *)
Record raised : Type := {
  raised_class : requests_class;
  raised_text : string
}.

Definition isinstance_SSLError (c : requests_class) : bool :=
  match c with
  | SSLError => true
  | _ => false
  end.

Definition isinstance_ConnectionError (c : requests_class) : bool :=
  match c with
  | SSLError | ProxyError | ConnectTimeout | ConnectionError => true
  | _ => false
  end.

Definition isinstance_Timeout (c : requests_class) : bool :=
  match c with
  | ConnectTimeout | ReadTimeout | Timeout => true
  | _ => false
  end.

(** [response.ok], which is what [if response:] tests: no 4xx or 5xx. *)
Definition response_ok (r : response) : bool :=
  negb ((400 <=? status_code r) && (status_code r <? 600)).

(** [s.startswith(p)]. *)
Definition startswith (s p : string) : bool := String.prefix p s.

(** [needle in hay] on two strings. *)
Definition contains (hay needle : string) : bool := is_infix (lit needle) (lit hay).

(** [request_data['stream'] = False]: a [dict] takes the item, in place when
    it has the key and at the end otherwise. *)
Fixpoint set_item (kv : list (str * json)) (k : str) (v : json) : list (str * json) :=
  match kv with
  | [] => [(k, v)]
  | (k', v') :: rest =>
      if str_eqb k k' then (k', v) :: rest else (k', v') :: set_item rest k v
  end.

Definition setitem (d : json) (k : str) (v : json) : res json :=
  match d with
  | JObj kv => Ret (JObj (set_item kv k v))
  | _ => Raise TypeError
  end.

(** [rfile.read(n)]: [n] bytes, fewer at the end of the stream; [-1] reads
    to the end, a smaller [n] is refused. *)
Definition rfile_read (bytes : string) (n : Z) : res string :=
  if n <? -1 then Raise ValueError
  else if n =? -1 then Ret bytes
  else Ret (substring 0 (Z.to_nat n) bytes).

(** [response.iter_content(chunk_size=n)] on an answer read to its end: the
    body in blocks of [n] bytes, the last one shorter.  That is where
    [requests] cuts an answer sent with a [Content-Length]; an answer sent
    in transfer chunks is cut at those chunks as well, in blocks that are
    still not empty, no longer than [n] and join to the body. *)
Fixpoint blocks (fuel n : nat) (body : string) : list string :=
  match fuel with
  | O => []
  | S fuel' =>
      match body with
      | EmptyString => []
      | _ => substring 0 n body
             :: blocks fuel' n (substring n (String.length body - n) body)
      end
  end.

Definition iter_content (chunk_size : Z) (body : string) : list string :=
  blocks (String.length body) (Z.to_nat chunk_size) body.

Fixpoint emit_all (events : list event) : M unit :=
  match events with
  | [] => ret tt
  | e :: rest => (emit e ;;; emit_all rest)%M
  end.

(** What [json.loads] and [response.json()] do with a text: they return
    the value read, or raise [json.JSONDecodeError] (for [response.json()]
    the subclass of it that [requests] raises), or raise something else:
    [RecursionError] on a text nested too deep, [ValueError] on a number of
    more digits than [int] converts.  The clauses
    [except json.JSONDecodeError] of the handler catch the second only. *)
Inductive loaded : Type :=
| Loaded (v : json)
| JSONDecodeError
| LoadError (e : exn).

Section Handler.

(** What the handler calls and this file does not define: [int] on a
    header value and [bytes.decode('utf-8')], each [None] where the
    function raises; [json.loads] and [response.json()] on the body of a
    response; [json.dumps] (ASCII text, by its defaults); and the backend
    as [requests.request] meets it: a response, or an exception. *)
Variable py_int : string -> option Z.
Variable decode_utf8 : string -> option str.
Variable json_loads : str -> loaded.
Variable json_dumps : json -> string.
Variable response_json : string -> loaded.
Variable requests_request : backend_call -> response + raised.

Variable self_config : config.

Definition _get_target_url : string :=
  match cfg_target_url self_config with
  | Some url => url
  | None => "http://localhost:8000"
  end.

Definition _get_verify_ssl : verify :=
  match cfg_verify_ssl self_config with
  | None => VerifyBool true
  | Some (inl b) => VerifyBool b
  | Some (inr s) =>
      if negb (String.eqb (lower s) "true" || String.eqb (lower s) "false")
      then VerifyBundle s
      else VerifyBool (String.eqb (lower s) "true")
  end.

Definition _get_request_timeout : option Z := cfg_request_timeout self_config.

(** Lines 60-88: the call handed to [requests.request], with the three
    forwarded headers, the empty ones dropped. *)
Definition outbound_call (method path : string) (headers : list (string * string))
    (data : option string) (json_data : option json) : backend_call :=
  (let target_url := _get_target_url in
   let verify_ssl :=
     if startswith target_url "https://" then _get_verify_ssl else VerifyBool true in
   let timeout := _get_request_timeout in
   let forward_headers :=
     filter (fun kv => negb (String.eqb (snd kv) ""))
       [("Authorization", header_get_or headers "Authorization" "");
        ("Content-Type", header_get_or headers "Content-Type" "application/json");
        ("Accept", header_get_or headers "Accept" "*/*")] in
   {| bc_method := method; bc_url := target_url ++ path;
      bc_headers := forward_headers; bc_data := data; bc_json := json_data;
      bc_verify := verify_ssl; bc_timeout := timeout |})%string.

(** Lines 59-106: one call of [requests.request]; on an exception the first
    clause whose class the exception is an instance of sends the error. *)
Definition _perform_request (method path : string) (headers : list (string * string))
    (data : option string) (json_data : option json) : M (option response) :=
  (let call := outbound_call method path headers data json_data in
   emit (RequestsRequest call) ;;;
   match requests_request call with
   | inl response => ret (Some response)
   | inr e =>
       if isinstance_SSLError (raised_class e) then
         emit (SendError 502 ("SSL Error: " ++ raised_text e)) ;;; ret None
       else if isinstance_ConnectionError (raised_class e) then
         emit (SendError 503 ("Service Unavailable: Connection Error: " ++ raised_text e)) ;;;
         ret None
       else if isinstance_Timeout (raised_class e) then
         emit (SendError 504 "Gateway Timeout") ;;; ret None
       else
         emit (SendError 500 ("Internal Server Error: " ++ raised_text e)) ;;; ret None
   end)%M%string.

(** Lines 168-175: the response handed on as it is. *)
Definition passthrough (r : response) : M unit :=
  (emit (SendResponse (status_code r)) ;;;
   emit_all (map (fun kv => SendHeader (fst kv) (snd kv))
               (filter (fun kv =>
                          existsb (String.eqb (lower (fst kv)))
                            ["content-type"; "content-length"; "date"])
                  (response_headers r))) ;;;
   emit EndHeaders ;;;
   emit_all (map Write (iter_content 8192 (content r))) ;;;
   emit Flush)%M.

(** Lines 147-165: the event stream.  The generator is run to its end and
    its chunks written after, which leaves the same events as writing each
    chunk as it is yielded: the generator writes nothing and raises only
    before its first chunk. *)
Definition simulate (r : response) : M unit :=
  (emit (SendResponse 200) ;;;
   emit (SendHeader "Content-Type" "text/event-stream") ;;;
   emit (SendHeader "Cache-Control" "no-cache") ;;;
   emit (SendHeader "Connection" "close") ;;;
   emit EndHeaders ;;;
   match response_json (content r) with
   | JSONDecodeError => emit (Write (content r))
   | LoadError e => raise e
   | Loaded response_json_data =>
       chunks <- _simulate_streaming json_dumps self_config response_json_data ;;
       emit_all (flat_map
                   (fun chunk =>
                      [Write ("data: " ++ json_dumps chunk ++ String "010" (String "010" ""));
                       Flush])
                   chunks) ;;;
       emit (Write ("data: [DONE]" ++ String "010" (String "010" ""))) ;;;
       emit Flush
   end)%M%string.

(** Lines 144-175. *)
Definition handle_response (result : option response) : M unit :=
  match result with
  | Some r =>
      if response_ok r then
        if (status_code r =? 200)
           && contains (header_get_or (response_headers r) "Content-Type" "")
                "application/json"
        then simulate r
        else passthrough r
      else ret tt
  | None => ret tt
  end.

(** Lines 125-175. *)
Definition do_POST (req : request) : M unit :=
  (content_length <-
     lift (match header_get (headers req) "Content-Length" with
           | None => Raise TypeError
           | Some v =>
               match py_int v with
               | Some n => Ret n
               | None => Raise ValueError
               end
           end) ;;
   emit (RfileRead content_length) ;;;
   post_data_bytes <- lift (rfile_read (rfile req) content_length) ;;
   match decode_utf8 post_data_bytes with
   | None => raise UnicodeDecodeError
   | Some text =>
       match json_loads text with
       | JSONDecodeError => emit (SendError 400 "Bad Request: Invalid JSON payload")
       | LoadError e => raise e
       | Loaded request_data =>
           request_data' <- lift (setitem request_data (lit "stream") (JBool false)) ;;
           result <- _perform_request "POST" (path req) (headers req) None
                       (Some request_data') ;;
           handle_response result
       end
   end)%M.

End Handler.

(** The status the error table gives each class of fault: 502 for a TLS
    error, 503 for the other connection errors, a timeout while connecting
    among them, 504 for the other timeouts, 500 for anything else. *)
Definition status_by_class (c : requests_class) : Z :=
  match c with
  | SSLError => 502
  | ProxyError | ConnectTimeout | ConnectionError => 503
  | ReadTimeout | Timeout => 504
  | OtherException => 500
  end.

(** The events of a run: what [w'] has recorded after [w]. *)
Definition events_of_run (w w' : world) (events : list event) : Prop :=
  trace w' = trace w ++ events.

(** Stand-ins for the library functions in the examples below, right on the
    few texts the examples hand them: [int] on digit strings and on words
    without a digit, the decoder on ASCII bytes and on the byte 255, the
    JSON readers on [{}] and on a short text that is not JSON. *)
Fixpoint digits_value (s : string) (acc : Z) : option Z :=
  match s with
  | EmptyString => Some acc
  | String c s' =>
      let n := Z.of_nat (nat_of_ascii c) in
      if (48 <=? n) && (n <=? 57) then digits_value s' (10 * acc + (n - 48)) else None
  end.

Definition example_int (s : string) : option Z :=
  match s with
  | EmptyString => None
  | _ => digits_value s 0
  end.

Definition example_decode (bytes : string) : option str :=
  if forallb (fun c => (nat_of_ascii c <? 128)%nat) (list_ascii_of_string bytes)
  then Some (lit bytes) else None.

Definition example_loads (text : str) : loaded :=
  if str_eqb text (lit "{}") then Loaded (JObj []) else JSONDecodeError.

Definition example_response_json (bytes : string) : loaded :=
  if String.eqb bytes "{}" then Loaded (JObj []) else JSONDecodeError.




Definition example_config : config := config_with_chunk_size None.

(** A backend that answers [r] to every call, and one that raises [e]. *)
Definition backend_answers (r : response) : backend_call -> response + raised :=
  fun _ => inl r.


Definition post_request (hs : list (string * string)) (body : string) : request :=
  {| path := "/v1/chat/completions"; headers := hs; rfile := body |}.

(** A 200 answer labelled as JSON whose body is not JSON. *)
Definition broken_json_response : response :=
  {| status_code := 200;
     response_headers := [("Content-Type", "application/json"); ("Content-Length", "4");
                          ("Date", "Wed, 04 Nov 2026 00:00:00 GMT"); ("Server", "llama.cpp")];
     content := "oops" |}.

(** ** The handler of GET *)

(** The condition of lines 116 and 170: the name, in lower case, is one of
    the three that are handed on. *)
Definition is_forwarded_header (key : string) : bool :=
  existsb (String.eqb (lower key)) ["content-type"; "content-length"; "date"].

Section GetHandler.

Variable requests_request : backend_call -> response + raised.
Variable self_config : config.

(** Lines 108-123.  Unlike [do_POST] it does not flush after the body. *)
Definition do_GET (req : request) : M unit :=
  (if String.eqb (path req) "/v1/models" then
     result <- _perform_request requests_request self_config "GET" (path req) (headers req)
                 None None ;;
     match result with
     | Some r =>
         if response_ok r then
           emit (SendResponse (status_code r)) ;;;
           emit_all (map (fun kv => SendHeader (fst kv) (snd kv))
                       (filter (fun kv =>
                                  existsb (String.eqb (lower (fst kv)))
                                    ["content-type"; "content-length"; "date"])
                          (response_headers r))) ;;;
           emit EndHeaders ;;;
           emit_all (map Write (iter_content 8192 (content r)))
         else ret tt
     | None => ret tt
     end
   else emit (SendError 404 "Not Found"))%M.

End GetHandler.

(** ** Reading a run *)

(** The calls made on the backend among some events, in order. *)
Definition backend_calls (events : list event) : list backend_call :=
  flat_map (fun e => match e with RequestsRequest c => [c] | _ => [] end) events.

(** Byte strings put end to end. *)
Definition joined (pieces : list string) : string :=
  fold_right String.append "" pieces.

(** The events of an answer handed on: the status, the headers that pass
    the test of lines 116 and 170, the end of the headers and the body in
    blocks of 8192 bytes. *)
Definition relayed (r : response) : list event :=
  SendResponse (status_code r)
  :: map (fun kv => SendHeader (fst kv) (snd kv))
       (filter (fun kv => is_forwarded_header (fst kv)) (response_headers r))
  ++ EndHeaders :: map Write (iter_content 8192 (content r)).

(** One event of the stream: a line [data: ...] and an empty line. *)
Definition sse_event (payload : string) : string :=
  ("data: " ++ payload ++ String "010" (String "010" ""))%string.

(** The five events that open the event stream (lines 147-151). *)
Definition sse_head : list event :=
  [SendResponse 200;
   SendHeader "Content-Type" "text/event-stream";
   SendHeader "Cache-Control" "no-cache";
   SendHeader "Connection" "close";
   EndHeaders].

(** A 404 answer of the backend. *)
Definition not_found_response : response :=
  {| status_code := 404;
     response_headers := [("Content-Type", "application/json")];
     content := "{}" |}.

(** An answer that is not JSON: a list of models as plain text. *)
Definition text_response : response :=
  {| status_code := 200;
     response_headers := [("Content-Type", "text/plain"); ("Set-Cookie", "a=b");
                          ("content-length", "5")];
     content := "llama" |}.

Definition get_request (p : string) : request :=
  {| path := p; headers := [("Accept", "application/json")]; rfile := "" |}.

(** [chunk["choices"][0]["delta"]["role"]], when the delta has one. *)
Definition delta_role (chunk : json) : option json :=
  match delta chunk with
  | Some d => field "role" d
  | None => None
  end.

Definition is_dict (v : json) : bool :=
  match v with
  | JObj _ => true
  | _ => false
  end.

(** An error object of the backend: no ["choices"]. *)
Definition error_object : json :=
  JObj [(lit "error", JStr (lit "overloaded"))].

(** A completion whose message has no content. *)
Definition silent_completion : json :=
  completion_of [(lit "id", JStr (lit "chatcmpl-4"))]
    [(lit "role", JStr (lit "assistant")); (lit "content", JNull)].

(** A 200 answer labelled JSON whose body is the empty object. *)
Definition empty_object_response : response :=
  {| status_code := 200;
     response_headers := [("content-type", "application/json; charset=utf-8")];
     content := "{}" |}.

(** A stand-in for [json.loads] that also reads the empty list. *)
Definition example_loads_list (text : str) : loaded :=
  if str_eqb text (lit "[]") then Loaded (JArr []) else example_loads text.

(** * The chunks of a completion *)

Section RangeFacts.
Variables (stop step : Z).
Hypothesis step_pos : 0 < step.

Lemma range_loop_length (fuel : nat) (i : Z) :
  stop - i <= Z.of_nat fuel ->
  Z.of_nat (List.length (range_loop fuel i stop step)) =
  if i <? stop then ceil_div (stop - i) step else 0.
Proof.
  revert i. induction fuel as [|fuel IH]; intros i Hfuel.
  - cbn [range_loop List.length]. destruct (Z.ltb_spec i stop); lia.
  - cbn [range_loop]. destruct (Z.ltb_spec 0 step) as [_|]; [|lia].
    destruct (Z.ltb_spec i stop) as [Hlt|Hge]; [|reflexivity].
    cbn [List.length]. rewrite Nat2Z.inj_succ, IH by lia.
    unfold ceil_div.
    destruct (Z.ltb_spec (i + step) stop) as [Hlt'|Hge'].
    + replace (stop - i + step - 1) with ((stop - (i + step) + step - 1) + 1 * step) by lia.
      rewrite Z.div_add by lia. lia.
    + change (Z.succ 0) with 1. apply Z.div_unique with (r := stop - i - 1); lia.
Qed.

Lemma range_loop_nth (fuel : nat) (i : Z) (k : nat) :
  stop - i <= Z.of_nat fuel ->
  (k < List.length (range_loop fuel i stop step))%nat ->
  nth k (range_loop fuel i stop step) 0 = i + Z.of_nat k * step.
Proof.
  revert i k. induction fuel as [|fuel IH]; intros i k Hfuel Hk.
  - cbn in Hk. lia.
  - cbn [range_loop] in *. destruct (Z.ltb_spec 0 step) as [_|]; [|lia].
    destruct (Z.ltb_spec i stop) as [Hlt|Hge]; [|cbn in Hk; lia].
    destruct k as [|k]; cbn [nth List.length] in *; [lia|].
    rewrite IH by lia. lia.
Qed.
End RangeFacts.

Lemma ceil_div_bounds (a b : Z) : 0 < b -> 0 < a ->
  (ceil_div a b - 1) * b < a <= ceil_div a b * b.
Proof.
  intros Hb Ha. unfold ceil_div.
  pose proof (Z.div_mod (a + b - 1) b ltac:(lia)).
  pose proof (Z.mod_pos_bound (a + b - 1) b Hb). nia.
Qed.

Lemma slice_step {A : Type} (l : list A) (i c : Z) :
  0 <= i -> 0 < c ->
  slice l i (i + c) = firstn (Z.to_nat c) (skipn (Z.to_nat i) l).
Proof.
  intros Hi Hc. unfold slice, clamp_index.
  destruct (Z.ltb_spec i 0); [lia|].
  destruct (Z.ltb_spec (i + c) 0); [lia|].
  set (len := Z.of_nat (List.length l)).
  destruct (Z.le_gt_cases (i + c) len) as [Hin|Hout].
  - rewrite !Z.min_l by lia. f_equal. lia.
  - rewrite (Z.min_r (i + c)) by lia.
    assert (Hlen : List.length (skipn (Z.to_nat (Z.min i len)) l)
                   = Z.to_nat (len - Z.min i len)).
    { rewrite length_skipn. subst len. lia. }
    rewrite firstn_all2 by lia.
    destruct (Z.le_gt_cases i len).
    + rewrite Z.min_l in * by lia. rewrite firstn_all2; [reflexivity|].
      rewrite Hlen. lia.
    + rewrite Z.min_r by lia.
      rewrite !skipn_all2 by (subst len; lia). now rewrite firstn_nil.
Qed.

Lemma concat_slices {A : Type} (l : list A) (c : Z) (fuel : nat) (i : Z) :
  0 < c -> 0 <= i ->
  Z.of_nat (List.length l) - i <= Z.of_nat fuel ->
  List.concat (map (fun j => slice l j (j + c)) (range_loop fuel i (Z.of_nat (List.length l)) c))
  = skipn (Z.to_nat i) l.
Proof.
  intros Hc. revert i. induction fuel as [|fuel IH]; intros i Hi Hfuel.
  - cbn. rewrite skipn_all2 by lia. reflexivity.
  - cbn [range_loop]. destruct (Z.ltb_spec 0 c) as [_|]; [|lia].
    destruct (Z.ltb_spec i (Z.of_nat (List.length l))) as [Hlt|Hge].
    + cbn [map List.concat]. rewrite IH by lia. rewrite slice_step by lia.
      replace (Z.to_nat (i + c)) with (Z.to_nat c + Z.to_nat i)%nat by lia.
      rewrite <- skipn_skipn. apply firstn_skipn.
    + cbn. rewrite skipn_all2 by lia. reflexivity.
Qed.

Lemma dict_get_obj kv k default :
  dict_get (JObj kv) (lit k) default = Ret (get_or k (JObj kv) default).
Proof. reflexivity. Qed.

Lemma base_event_data_of_obj kv now :
  base_event_data_of (JObj kv) now = Ret (base_at (JObj kv) now).
Proof. reflexivity. Qed.

Lemma has_choices_true_inv rd :
  has_choices rd = Ret true ->
  exists kv choice rest,
    rd = JObj kv /\ lookup (lit "choices") kv = Some (JArr (choice :: rest)).
Proof.
  unfold has_choices. destruct rd as [| | | | s|l|kv]; cbn [py_in res_bind getitem];
    try discriminate.
  - destruct (is_infix (lit "choices") s); discriminate.
  - destruct (existsb _ l); discriminate.
  - destruct (lookup (lit "choices") kv) as [v|] eqn:E; [|discriminate].
    destruct v as [| | | | |[|c r]|]; cbn [truthy]; try discriminate.
    intros _. now exists kv, c, r.
Qed.

Lemma has_choices_false_inv rd :
  has_choices rd = Ret false ->
  (exists kv, rd = JObj kv) \/
  (forall k default, dict_get rd k default = Raise AttributeError).
Proof.
  unfold has_choices. destruct rd as [| | | | s|l|kv]; cbn [py_in res_bind getitem];
    try discriminate.
  - intros _. right. reflexivity.
  - intros _. right. reflexivity.
  - intros _. left. now exists kv.
Qed.

Section EmitterFacts.
Variable json_dumps : json -> string.

Lemma simulate_streaming_usable cfg rd w choice rest :
  field "choices" rd = Some (JArr (choice :: rest)) ->
  _simulate_streaming json_dumps cfg rd w =
  match dict_get choice (lit "message") (JObj []) with
  | Ret message =>
      match dict_get message (lit "content") (JStr []),
            dict_get message (lit "tool_calls") JNull with
      | Ret content, Ret tool_calls =>
          (branch_chunks (base_at rd (clock w 0%nat)) tool_calls content
             (streaming_chunk_size_of cfg), tick w)
      | Raise e, _ => (Raise e, w)
      | _, Raise e => (Raise e, w)
      end
  | Raise e => (Raise e, w)
  end.
Proof.
  intros Hc. destruct rd as [| | | | | |kv]; try discriminate. unfold field in Hc.
  unfold _simulate_streaming, has_choices, bind, lift.
  cbn [py_in getitem res_bind]. rewrite Hc. cbn [truthy getitem_0].
  destruct (dict_get choice _ _) as [message|e]; [|reflexivity].
  destruct message as [| | | | | |mkv]; try reflexivity.
Qed.

Lemma simulate_streaming_unusable cfg rd w :
  has_choices rd = Ret false ->
  _simulate_streaming json_dumps cfg rd w =
  match rd with
  | JObj _ =>
      (Ret [wrapper_at rd (clock w 0%nat)
              (JObj [(lit "content", JStr (lit (json_dumps rd)))]) JNull;
            wrapper_at rd (clock w 1%nat) (JObj []) (JStr (lit "stop"))],
       tick (tick w))
  | _ => (Raise AttributeError, w)
  end.
Proof.
  intros H. unfold _simulate_streaming, bind, lift. rewrite H.
  destruct rd; reflexivity.
Qed.

End EmitterFacts.

(** *** Reading the chunks the emitter builds *)

Lemma lookup_app k a b :
  lookup k (a ++ b) = match lookup k a with Some v => Some v | None => lookup k b end.
Proof.
  induction a as [|[k' v] a IH]; cbn [lookup app]; [reflexivity|].
  destruct (str_eqb k k'); [reflexivity|exact IH].
Qed.

Lemma base_at_no_choices rd now : lookup (lit "choices") (base_at rd now) = None.
Proof. reflexivity. Qed.

Lemma field_choices_chunk_of rd now d f :
  field "choices" (chunk_of (base_at rd now) d f) = Some (JArr [choice_of d f]).
Proof. reflexivity. Qed.

Lemma finish_reason_chunk_of rd now d f :
  finish_reason (chunk_of (base_at rd now) d f) = Some f.
Proof. reflexivity. Qed.

Lemma delta_chunk_of rd now d f : delta (chunk_of (base_at rd now) d f) = Some d.
Proof. reflexivity. Qed.

(** Each chunk of the loop is built on the base, with no finish reason. *)
Lemma content_chunks_inv base content size indices texts :
  content_chunks base content size indices = Ret texts ->
  Forall (fun c => exists d, c = chunk_of base d JNull) texts.
Proof.
  revert texts. induction indices as [|i rest IH]; intros texts H; cbn in H.
  - injection H as <-. constructor.
  - destruct (getslice content i (i + size)) as [t|e]; cbn in H; [|discriminate].
    destruct (content_chunks base content size rest) as [later|e]; cbn in H; [|discriminate].
    injection H as <-. constructor; [eexists; reflexivity|]. now apply IH.
Qed.

(** On a [str] the loop cannot raise: it maps the indices to their chunks. *)
Lemma content_chunks_str base s size indices :
  content_chunks base (JStr s) size indices =
  Ret (map (fun i => chunk_of base (text_delta i (JStr (slice s i (i + size)))) JNull)
         indices).
Proof.
  induction indices as [|i rest IH]; cbn [content_chunks map]; [reflexivity|].
  cbn [getslice res_bind]. rewrite IH. reflexivity.
Qed.

(** The three branches: some chunks without a finish reason, then one that
    carries it. *)
Lemma branch_chunks_inv base tool_calls content size chunks :
  branch_chunks base tool_calls content size = Ret chunks ->
  exists body d,
    chunks = body ++ [chunk_of base d
                        (JStr (lit (if truthy tool_calls then "tool_calls" else "stop")))] /\
    Forall (fun c => exists d', c = chunk_of base d' JNull) body.
Proof.
  unfold branch_chunks. destruct (truthy tool_calls).
  - intros H. injection H as <-. exists [], (JObj [(lit "role", JStr (lit "assistant")); (lit "content", JNull); (lit "tool_calls", tool_calls)]).
    split; [reflexivity|constructor].
  - destruct (truthy content).
    + destruct (py_len content) as [len|e]; cbn [res_bind]; [|discriminate].
      destruct (py_range 0 len size) as [indices|e]; cbn [res_bind]; [|discriminate].
      destruct (content_chunks base content size indices) as [texts|e] eqn:E;
        cbn [res_bind]; [|discriminate].
      intros H. injection H as <-. exists texts, (JObj []).
      split; [reflexivity|]. eapply content_chunks_inv, E.
    + intros H. injection H as <-. exists [], (JObj []). split; [reflexivity|constructor].
Qed.

Section EmitterCases.
Variable json_dumps : json -> string.

(** A run that returns took one of the two paths of line 183. *)
Lemma simulate_streaming_inv cfg rd w chunks :
  fst (_simulate_streaming json_dumps cfg rd w) = Ret chunks ->
  (exists tool_calls content,
      has_choices rd = Ret true /\
      tool_calls_of rd = Ret tool_calls /\
      branch_chunks (base_at rd (clock w 0%nat)) tool_calls content
        (streaming_chunk_size_of cfg) = Ret chunks) \/
  (has_choices rd = Ret false /\
   chunks = [wrapper_at rd (clock w 0%nat)
               (JObj [(lit "content", JStr (lit (json_dumps rd)))]) JNull;
             wrapper_at rd (clock w 1%nat) (JObj []) (JStr (lit "stop"))]).
Proof.
  intros H. destruct (has_choices rd) as [[|]|e] eqn:Hc.
  - left. destruct (has_choices_true_inv _ Hc) as (kv & choice & rest & -> & Hl).
    rewrite (simulate_streaming_usable json_dumps cfg (JObj kv) w choice rest Hl) in H.
    unfold tool_calls_of. cbn [getitem res_bind]. rewrite Hl. cbn [getitem_0 res_bind].
    destruct (dict_get choice _ _) as [message|e]; [|discriminate H].
    cbn [res_bind].
    destruct (dict_get message (lit "content") _) as [content|e];
      destruct (dict_get message (lit "tool_calls") _) as [tool_calls|e'];
      try discriminate H.
    exists tool_calls, content. cbn [fst] in H. auto.
  - right. split; [reflexivity|].
    rewrite (simulate_streaming_unusable json_dumps cfg rd w Hc) in H.
    destruct rd; try discriminate H. cbn in H. now injection H as <-.
  - exfalso. unfold _simulate_streaming, bind, lift in H. rewrite Hc in H. discriminate H.
Qed.

(** On a completion of the specified shape, with a chunk size other than
    zero, the generator runs to its end. *)
Lemma simulate_streaming_returns cfg rd w :
  is_chat_completion rd = true ->
  streaming_chunk_size_of cfg <> 0 ->
  exists chunks, fst (_simulate_streaming json_dumps cfg rd w) = Ret chunks.
Proof.
  intros Hwf Hsize. destruct rd as [| | | | | |kv]; try discriminate Hwf.
  destruct (has_choices (JObj kv)) as [[|]|e] eqn:Hc.
  - destruct (has_choices_true_inv _ Hc) as (kv' & choice & rest & Heq & Hl).
    injection Heq as <-.
    rewrite (simulate_streaming_usable json_dumps cfg (JObj kv) w choice rest Hl).
    cbn [is_chat_completion] in Hwf. rewrite Hl in Hwf.
    destruct choice as [| | | | | |ckv]; try discriminate Hwf.
    cbn [is_choice] in Hwf. cbn [dict_get].
    destruct (lookup (lit "message") ckv) as [message|].
    + destruct message as [| | | | | |mkv]; try discriminate Hwf.
      cbn [is_message] in Hwf. cbn [dict_get fst].
      unfold branch_chunks.
      destruct (truthy _); [eexists; reflexivity|].
      destruct (lookup (lit "content") mkv) as [[| | | |s| |]|]; try discriminate Hwf;
        cbn [truthy]; try (eexists; reflexivity).
      destruct s; [eexists; reflexivity|].
      cbn [py_len res_bind]. unfold py_range.
      destruct (Z.eqb_spec (streaming_chunk_size_of cfg) 0); [contradiction|].
      cbn [res_bind]. rewrite content_chunks_str. cbn [res_bind]. eexists; reflexivity.
    + cbn [dict_get lookup fst]. unfold branch_chunks. cbn [truthy]. eexists; reflexivity.
  - rewrite (simulate_streaming_unusable json_dumps cfg (JObj kv) w Hc).
    eexists; reflexivity.
  - exfalso. unfold has_choices in Hc. cbn [py_in res_bind getitem] in Hc.
    destruct (lookup (lit "choices") kv); discriminate Hc.
Qed.

End EmitterCases.

Lemma delta_content_text_chunk rd now i text :
  delta_content (chunk_of (base_at rd now) (text_delta i text) JNull) = Some text.
Proof. unfold text_delta. destruct (i =? 0); reflexivity. Qed.

Lemma content_text_text_chunk rd now i t :
  content_text (chunk_of (base_at rd now) (text_delta i (JStr t)) JNull) = t.
Proof. unfold content_text. now rewrite delta_content_text_chunk. Qed.

Lemma field_obj k v x : field k v = Some x -> exists kv, v = JObj kv.
Proof. destruct v; try discriminate. eauto. Qed.

Lemma firstn_skipn_length {A : Type} (l : list A) (c i : nat) :
  List.length (firstn c (skipn i l)) = Nat.min c (List.length l - i).
Proof. now rewrite length_firstn, length_skipn. Qed.

Lemma last_as_nth {A : Type} (l : list A) (d : A) :
  last l d = nth (List.length l - 1) l d.
Proof.
  induction l as [|a [|b l] IH]; try reflexivity.
  change (last (a :: b :: l) d) with (last (b :: l) d). rewrite IH.
  cbn [List.length]. replace (S (S (List.length l)) - 1)%nat with (S (S (List.length l) - 1)) by lia.
  reflexivity.
Qed.

(** C1 (as amended): a completion whose first choice has a non-empty [str]
    content of length L and no truthy [tool_calls], streamed with a chunk
    size C > 0, yields ceil(L/C) text chunks followed by one terminal chunk
    with an empty delta; the k-th text is [content[k*C:(k+1)*C]], every text
    but the last has length C, the last is non-empty and no longer than C,
    and the texts concatenated in order are the content. *)
Theorem content_streamed_in_slices
    (json_dumps : json -> string) (cfg : config) (rd : json) (w : world)
    (choice : json) (rest : list json) (message : json) (s : str) :
  field "choices" rd = Some (JArr (choice :: rest)) ->
  field "message" choice = Some message ->
  field "content" message = Some (JStr s) ->
  s <> [] ->
  truthy (get_or "tool_calls" message JNull) = false ->
  0 < streaming_chunk_size_of cfg ->
  let C := streaming_chunk_size_of cfg in
  let L := Z.of_nat (List.length s) in
  exists texts terminal,
    fst (_simulate_streaming json_dumps cfg rd w) = Ret (texts ++ [terminal]) /\
    Z.of_nat (List.length texts) = ceil_div L C /\
    Z.of_nat (List.length (texts ++ [terminal])) = ceil_div L C + 1 /\
    (forall k, (k < List.length texts)%nat ->
       delta_content (nth k texts JNull) =
       Some (JStr (firstn (Z.to_nat C) (skipn (k * Z.to_nat C) s)))) /\
    (forall k, (S k < List.length texts)%nat ->
       Z.of_nat (List.length (content_text (nth k texts JNull))) = C) /\
    0 < Z.of_nat (List.length (content_text (last texts JNull))) <= C /\
    List.concat (map content_text texts) = s /\
    delta terminal = Some (JObj []) /\
    finish_reason terminal = Some (JStr (lit "stop")).
Proof.
  intros Hchoices Hmessage Hcontent Hs Htools Hsize C L.
  destruct (field_obj _ _ _ Hmessage) as [ckv ->].
  destruct (field_obj _ _ _ Hcontent) as [mkv ->].
  rewrite (simulate_streaming_usable json_dumps cfg rd w _ _ Hchoices).
  unfold field in Hmessage, Hcontent. unfold get_or, field in Htools.
  cbn [dict_get]. rewrite Hmessage. cbn [dict_get]. rewrite Hcontent.
  unfold branch_chunks. rewrite Htools.
  assert (Htruthy : truthy (JStr s) = true) by (destruct s; [contradiction|reflexivity]).
  rewrite Htruthy.
  cbn [py_len res_bind]. unfold py_range. fold C. fold L.
  destruct (Z.eqb_spec C 0) as [|_]; [lia|]. cbn [res_bind].
  rewrite content_chunks_str. cbn [res_bind fst].
  set (base := base_at rd (clock w 0%nat)).
  set (indices := range_loop (Z.to_nat (Z.abs (L - 0))) 0 L C).
  set (mk := fun i => chunk_of base (text_delta i (JStr (slice s i (i + C)))) JNull).
  assert (HL : 0 < L) by (subst L; destruct s; [contradiction|cbn [List.length]; lia]).
  assert (Hfuel : L - 0 <= Z.of_nat (Z.to_nat (Z.abs (L - 0)))) by lia.
  assert (Hlen : Z.of_nat (List.length indices) = ceil_div L C).
  { subst indices. rewrite (range_loop_length L C Hsize _ 0 Hfuel).
    destruct (Z.ltb_spec 0 L); [|lia]. now rewrite Z.sub_0_r. }
  assert (Hnth : forall k, (k < List.length indices)%nat ->
                   nth k indices 0 = Z.of_nat k * C).
  { intros k Hk. subst indices. rewrite (range_loop_nth L C Hsize _ 0 k Hfuel Hk). lia. }
  pose proof (ceil_div_bounds L C Hsize HL) as Hceil.
  assert (Htext : forall k, (k < List.length indices)%nat ->
            content_text (nth k (map mk indices) JNull)
            = firstn (Z.to_nat C) (skipn (k * Z.to_nat C) s)).
  { intros k Hk.
    rewrite (nth_indep _ JNull (mk 0)) by (rewrite length_map; exact Hk).
    rewrite map_nth. subst mk base. cbv beta. rewrite content_text_text_chunk.
    rewrite (Hnth k Hk), slice_step by nia.
    now rewrite Z2Nat.inj_mul, Nat2Z.id by lia. }
  exists (map mk indices), (chunk_of base (JObj []) (JStr (lit "stop"))).
  rewrite length_app, !length_map. cbn [List.length].
  repeat split.
  - exact Hlen.
  - lia.
  - intros k Hk.
    rewrite (nth_indep _ JNull (mk 0)) by (rewrite length_map; exact Hk).
    rewrite map_nth. subst mk base. cbv beta. rewrite delta_content_text_chunk.
    rewrite (Hnth k Hk), slice_step by nia.
    now rewrite Z2Nat.inj_mul, Nat2Z.id by lia.
  - intros k Hk. rewrite Htext by lia. rewrite firstn_skipn_length. fold L.
    assert ((Z.of_nat k + 1) * C <= (ceil_div L C - 1) * C) by nia. lia.
  - rewrite last_as_nth, length_map, Htext by lia. rewrite firstn_skipn_length.
    fold L. nia.
  - rewrite last_as_nth, length_map, Htext by lia. rewrite firstn_skipn_length.
    fold L. lia.
  - rewrite map_map. subst mk base. cbv beta.
    erewrite map_ext by (intros; apply content_text_text_chunk).
    subst indices. rewrite Z.sub_0_r, Z.abs_eq by lia.
    subst L. etransitivity; [apply (concat_slices s C _ 0); lia|reflexivity].
Qed.

Lemma content_streamed_in_slices_witness :
  exists texts terminal,
    fst (_simulate_streaming const_dumps (config_with_chunk_size (Some 5))
           hello_completion (world_at 0)) = Ret (texts ++ [terminal]) /\
    Z.of_nat (List.length texts) = 3 /\
    List.concat (map content_text texts) = lit "Hello, world!" /\
    delta terminal = Some (JObj []).
Proof.
  destruct (content_streamed_in_slices const_dumps (config_with_chunk_size (Some 5))
              hello_completion (world_at 0)
              (JObj [(lit "index", JInt 0);
                     (lit "message",
                      JObj [(lit "role", JStr (lit "assistant"));
                            (lit "content", JStr (lit "Hello, world!"))])])
              []
              (JObj [(lit "role", JStr (lit "assistant"));
                     (lit "content", JStr (lit "Hello, world!"))])
              (lit "Hello, world!")
              eq_refl eq_refl eq_refl ltac:(discriminate) eq_refl eq_refl)
    as (texts & terminal & Hrun & Hcount & _ & _ & _ & _ & Hconcat & Hdelta & _).
  exists texts, terminal. repeat split; assumption.
Defined.

(** C1, as stated, fails: a non-empty content next to non-empty [tool_calls]
    is not streamed; the run yields the one tool-call chunk, where
    ceil(2/50) + 1 is 2. *)
Lemma tool_calls_preempt_content :
  field "content" (JObj [(lit "role", JStr (lit "assistant")); (lit "content", JStr (lit "Hi"));
                         (lit "tool_calls", JArr [a_tool_call])]) = Some (JStr (lit "Hi")) /\
  ceil_div 2 50 + 1 = 2 /\
  exists chunk,
    fst (_simulate_streaming const_dumps (config_with_chunk_size None)
           tool_completion (world_at 0)) = Ret [chunk] /\
    delta_content chunk = Some JNull /\
    finish_reason chunk = Some (JStr (lit "tool_calls")).
Proof.
  split; [reflexivity|]. split; [reflexivity|].
  eexists. split; [reflexivity|]. split; reflexivity.
Qed.

(** C5: when the first choice's message has [tool_calls] present and
    non-empty (truthy, as line 197 tests it), whatever its content, the run
    yields exactly one chunk, with delta
    [{role: "assistant", content: null, tool_calls: <as received>}] and
    finish reason ["tool_calls"]. *)
Theorem tool_calls_single_chunk
    (json_dumps : json -> string) (cfg : config) (rd : json) (w : world)
    (choice : json) (rest : list json) (message tool_calls : json) :
  field "choices" rd = Some (JArr (choice :: rest)) ->
  field "message" choice = Some message ->
  field "tool_calls" message = Some tool_calls ->
  truthy tool_calls = true ->
  exists chunk,
    fst (_simulate_streaming json_dumps cfg rd w) = Ret [chunk] /\
    delta chunk = Some (JObj [(lit "role", JStr (lit "assistant"));
                              (lit "content", JNull);
                              (lit "tool_calls", tool_calls)]) /\
    finish_reason chunk = Some (JStr (lit "tool_calls")).
Proof.
  intros Hchoices Hmessage Htools Htruthy.
  destruct (field_obj _ _ _ Hmessage) as [ckv ->].
  destruct (field_obj _ _ _ Htools) as [mkv ->].
  rewrite (simulate_streaming_usable json_dumps cfg rd w _ _ Hchoices).
  unfold field in Hmessage, Htools.
  cbn [dict_get]. rewrite Hmessage. cbn [dict_get]. rewrite Htools.
  unfold branch_chunks. rewrite Htruthy.
  eexists. split; [reflexivity|]. split; reflexivity.
Qed.

Lemma tool_calls_single_chunk_witness :
  exists chunk,
    fst (_simulate_streaming const_dumps (config_with_chunk_size None)
           tool_completion (world_at 0)) = Ret [chunk] /\
    delta chunk = Some (JObj [(lit "role", JStr (lit "assistant"));
                              (lit "content", JNull);
                              (lit "tool_calls", JArr [a_tool_call])]) /\
    finish_reason chunk = Some (JStr (lit "tool_calls")).
Proof.
  exact (tool_calls_single_chunk const_dumps (config_with_chunk_size None)
           tool_completion (world_at 0)
           (JObj [(lit "index", JInt 0);
                  (lit "message",
                   JObj [(lit "role", JStr (lit "assistant")); (lit "content", JStr (lit "Hi"));
                         (lit "tool_calls", JArr [a_tool_call])])])
           []
           (JObj [(lit "role", JStr (lit "assistant")); (lit "content", JStr (lit "Hi"));
                  (lit "tool_calls", JArr [a_tool_call])])
           (JArr [a_tool_call])
           eq_refl eq_refl eq_refl eq_refl).
Defined.

(** *** Properties of every chunk *)

Lemma takes_tool_call_branch_usable rd tool_calls :
  has_choices rd = Ret true -> tool_calls_of rd = Ret tool_calls ->
  takes_tool_call_branch rd = truthy tool_calls.
Proof. intros H1 H2. unfold takes_tool_call_branch. now rewrite H1, H2. Qed.

Lemma takes_tool_call_branch_unusable rd :
  has_choices rd = Ret false -> takes_tool_call_branch rd = false.
Proof. intros H. unfold takes_tool_call_branch. now rewrite H. Qed.

(** C4: in the sequence a run yields, every chunk but the last has a null
    finish reason, and the last carries ["tool_calls"] when the run took the
    tool-call branch and ["stop"] otherwise (content branch, empty branch,
    and the wrapping of a response without usable choices).  A completion of
    the specified shape, with a chunk size other than zero, does yield. *)
Theorem finish_reason_only_on_last
    (json_dumps : json -> string) (cfg : config) (rd : json) (w : world) :
  (is_chat_completion rd = true -> streaming_chunk_size_of cfg <> 0 ->
   exists chunks, fst (_simulate_streaming json_dumps cfg rd w) = Ret chunks) /\
  (forall chunks,
     fst (_simulate_streaming json_dumps cfg rd w) = Ret chunks ->
     exists body final,
       chunks = body ++ [final] /\
       Forall (fun c => finish_reason c = Some JNull) body /\
       finish_reason final =
       Some (JStr (lit (if takes_tool_call_branch rd then "tool_calls" else "stop")))).
Proof.
  split; [apply simulate_streaming_returns|].
  intros chunks H.
  destruct (simulate_streaming_inv json_dumps cfg rd w chunks H)
    as [(tool_calls & content & Hc & Htc & Hb)|[Hc ->]].
  - rewrite (takes_tool_call_branch_usable rd tool_calls Hc Htc).
    destruct (branch_chunks_inv _ _ _ _ _ Hb) as (body & d & -> & Hbody).
    exists body, (chunk_of (base_at rd (clock w 0%nat)) d
                    (JStr (lit (if truthy tool_calls then "tool_calls" else "stop")))).
    split; [reflexivity|]. split.
    + eapply Forall_impl; [|exact Hbody]. intros c [d' ->]. reflexivity.
    + reflexivity.
  - rewrite (takes_tool_call_branch_unusable rd Hc).
    eexists [_], _. split; [reflexivity|]. split; [|reflexivity].
    constructor; [reflexivity|constructor].
Qed.

Lemma finish_reason_only_on_last_witness :
  exists body final,
    fst (_simulate_streaming const_dumps (config_with_chunk_size (Some 5))
           hello_completion (world_at 0)) = Ret (body ++ [final]) /\
    Forall (fun c => finish_reason c = Some JNull) body /\
    finish_reason final = Some (JStr (lit "stop")).
Proof.
  destruct (proj2 (finish_reason_only_on_last const_dumps (config_with_chunk_size (Some 5))
                     hello_completion (world_at 0)) _ eq_refl)
    as (body & final & Heq & Hbody & Hfinal).
  exists body, final. rewrite <- Heq. repeat split; assumption.
Defined.

(** C9: every chunk a run yields, the wrapping of a response without usable
    choices included, has for ["choices"] a list of exactly one element,
    whose ["index"] is 0.  A completion of the specified shape, with a chunk
    size other than zero, does yield. *)
Theorem one_choice_at_index_0
    (json_dumps : json -> string) (cfg : config) (rd : json) (w : world) :
  (is_chat_completion rd = true -> streaming_chunk_size_of cfg <> 0 ->
   exists chunks, fst (_simulate_streaming json_dumps cfg rd w) = Ret chunks) /\
  (forall chunks,
     fst (_simulate_streaming json_dumps cfg rd w) = Ret chunks ->
     Forall (fun c => exists ch, field "choices" c = Some (JArr [ch]) /\
                                 field "index" ch = Some (JInt 0)) chunks).
Proof.
  split; [apply simulate_streaming_returns|].
  intros chunks H.
  destruct (simulate_streaming_inv json_dumps cfg rd w chunks H)
    as [(tool_calls & content & Hc & Htc & Hb)|[Hc ->]].
  - destruct (branch_chunks_inv _ _ _ _ _ Hb) as (body & d & -> & Hbody).
    apply Forall_app. split.
    + eapply Forall_impl; [|exact Hbody]. intros c [d' ->].
      eexists. split; reflexivity.
    + constructor; [|constructor]. eexists. split; reflexivity.
  - repeat constructor; eexists; split; reflexivity.
Qed.

Lemma one_choice_at_index_0_witness :
  Forall (fun c => exists ch, field "choices" c = Some (JArr [ch]) /\
                              field "index" ch = Some (JInt 0))
    [wrapper_at (JObj [(lit "error", JStr (lit "overloaded"))]) 7
       (JObj [(lit "content",
               JStr (lit (const_dumps (JObj [(lit "error", JStr (lit "overloaded"))]))))]) JNull;
     wrapper_at (JObj [(lit "error", JStr (lit "overloaded"))]) 8
       (JObj []) (JStr (lit "stop"))].
Proof.
  exact (proj2 (one_choice_at_index_0 const_dumps (config_with_chunk_size None)
                  (JObj [(lit "error", JStr (lit "overloaded"))]) (world_at 7))
           _ eq_refl).
Defined.

Lemma simulate_streaming_raises json_dumps cfg rd w e :
  has_choices rd = Raise e ->
  _simulate_streaming json_dumps cfg rd w = (Raise e, w).
Proof. intros H. unfold _simulate_streaming, bind, lift. now rewrite H. Qed.

(** C2 (as amended): on a completion with a non-empty list of choices, every
    chunk carries [id], [created] and [model] copied from the completion
    when present, and otherwise the placeholder id, the time read during the
    run and the placeholder model; its [object] is
    ["chat.completion.chunk"] when the completion has no [object].  On a
    response without usable choices, the two chunks carry the [id] copied or
    the placeholder, the [object] ["chat.completion.chunk"], the time read
    when each is built and the model ["unknown-model"]. *)
Theorem chunk_metadata
    (json_dumps : json -> string) (cfg : config) (rd : json) (w : world)
    (chunks : list json) :
  fst (_simulate_streaming json_dumps cfg rd w) = Ret chunks ->
  (has_choices rd = Ret true ->
   Forall (fun c =>
             field "id" c = Some (get_or "id" rd (JStr (lit "chatcmpl-default-id"))) /\
             field "created" c = Some (get_or "created" rd (JInt (clock w 0%nat))) /\
             field "model" c = Some (get_or "model" rd (JStr (lit "gpt-3.5-turbo-0613"))) /\
             (field "object" rd = None ->
              field "object" c = Some (JStr (lit "chat.completion.chunk")))) chunks) /\
  (has_choices rd = Ret false ->
   exists first second,
     chunks = [first; second] /\
     field "created" first = Some (JInt (clock w 0%nat)) /\
     field "created" second = Some (JInt (clock w 1%nat)) /\
     Forall (fun c =>
               field "id" c = Some (get_or "id" rd (JStr (lit "chatcmpl-default-id"))) /\
               field "object" c = Some (JStr (lit "chat.completion.chunk")) /\
               field "model" c = Some (JStr (lit "unknown-model"))) chunks).
Proof.
  intros H.
  destruct (simulate_streaming_inv json_dumps cfg rd w chunks H)
    as [(tool_calls & content & Hc & Htc & Hb)|[Hc ->]];
    (split; intros Hc'; [|]); try congruence.
  - clear Hc'. destruct (branch_chunks_inv _ _ _ _ _ Hb) as (body & d & -> & Hbody).
    assert (Hone : forall d' f,
               let c := chunk_of (base_at rd (clock w 0%nat)) d' f in
               field "id" c = Some (get_or "id" rd (JStr (lit "chatcmpl-default-id"))) /\
               field "created" c = Some (get_or "created" rd (JInt (clock w 0%nat))) /\
               field "model" c = Some (get_or "model" rd (JStr (lit "gpt-3.5-turbo-0613"))) /\
               (field "object" rd = None ->
                field "object" c = Some (JStr (lit "chat.completion.chunk")))).
    { intros d' f c. repeat split. intros Hno. subst c.
      change (field "object" (chunk_of (base_at rd (clock w 0%nat)) d' f))
        with (Some (get_or "object" rd (JStr (lit "chat.completion.chunk")))).
      unfold get_or. now rewrite Hno. }
    apply Forall_app. split.
    + eapply Forall_impl; [|exact Hbody]. intros c [d' ->]. apply Hone.
    + constructor; [apply Hone|constructor].
  - clear Hc'. eexists _, _. split; [reflexivity|].
    split; [reflexivity|]. split; [reflexivity|].
    repeat constructor.
Qed.

Lemma chunk_metadata_witness :
  Forall (fun c =>
            field "id" c = Some (JStr (lit "chatcmpl-1")) /\
            field "created" c = Some (JInt 1700000000) /\
            field "model" c = Some (JStr (lit "llama")))
    [chunk_of (base_at hello_completion 0)
       (text_delta 0 (JStr (lit "Hello, world!"))) JNull;
     chunk_of (base_at hello_completion 0) (JObj []) (JStr (lit "stop"))].
Proof.
  pose proof (proj1 (chunk_metadata const_dumps (config_with_chunk_size None)
                       hello_completion (world_at 0) _ eq_refl) eq_refl) as H.
  eapply Forall_impl; [|exact H].
  intros c (Hid & Hcreated & Hmodel & _). repeat split; assumption.
Defined.

(** C2, as stated, fails.  A completion whose list of choices is empty is
    wrapped: its chunks carry the time of the run and ["unknown-model"], not
    the [created] and [model] it has.  And a completion with choices hands
    its own [object] on to the chunks. *)
Lemma metadata_not_always_copied :
  (exists first second,
     fst (_simulate_streaming const_dumps (config_with_chunk_size None)
            (JObj [(lit "id", JStr (lit "chatcmpl-3")); (lit "created", JInt 1700000000);
                   (lit "model", JStr (lit "llama")); (lit "choices", JArr [])])
            (world_at 1800000000)) = Ret [first; second] /\
     field "model" first = Some (JStr (lit "unknown-model")) /\
     field "created" first = Some (JInt 1800000000) /\
     field "model" second = Some (JStr (lit "unknown-model")) /\
     field "created" second = Some (JInt 1800000001)) /\
  (exists chunks,
     fst (_simulate_streaming const_dumps (config_with_chunk_size None)
            hello_completion (world_at 0)) = Ret chunks /\
     map (field "object") chunks =
     [Some (JStr (lit "chat.completion")); Some (JStr (lit "chat.completion"))]).
Proof.
  split.
  - eexists _, _. split; [reflexivity|]. repeat split.
  - eexists. split; reflexivity.
Qed.

(** C6 (as amended): the chunks a run yields are a function of the
    completion, the configuration and the times read during the run: two
    runs that read the same first two times yield the same; and on a
    completion with a non-empty list of choices and a [created] of its own
    the times do not matter. *)
Theorem chunks_determined_up_to_clock
    (json_dumps : json -> string) (cfg : config) (rd : json) (w1 w2 : world) :
  (clock w1 0%nat = clock w2 0%nat -> clock w1 1%nat = clock w2 1%nat ->
   fst (_simulate_streaming json_dumps cfg rd w1)
   = fst (_simulate_streaming json_dumps cfg rd w2)) /\
  (has_choices rd = Ret true -> field "created" rd <> None ->
   fst (_simulate_streaming json_dumps cfg rd w1)
   = fst (_simulate_streaming json_dumps cfg rd w2)).
Proof.
  assert (Husable : forall kv choice rest,
             rd = JObj kv -> lookup (lit "choices") kv = Some (JArr (choice :: rest)) ->
             base_at rd (clock w1 0%nat) = base_at rd (clock w2 0%nat) ->
             fst (_simulate_streaming json_dumps cfg rd w1)
             = fst (_simulate_streaming json_dumps cfg rd w2)).
  { intros kv choice rest -> Hl Hbase.
    rewrite !(simulate_streaming_usable json_dumps cfg (JObj kv) _ choice rest Hl).
    rewrite Hbase.
    destruct (dict_get choice (lit "message") (JObj [])) as [message|e]; [|reflexivity].
    destruct (dict_get message (lit "content") (JStr []));
      destruct (dict_get message (lit "tool_calls") JNull); reflexivity. }
  split.
  - intros H0 H1. destruct (has_choices rd) as [[|]|e] eqn:Hc.
    + destruct (has_choices_true_inv _ Hc) as (kv & choice & rest & Heq & Hl).
      apply (Husable kv choice rest Heq Hl). unfold base_at. now rewrite H0.
    + rewrite !(simulate_streaming_unusable json_dumps cfg rd _ Hc).
      destruct rd; try reflexivity. cbn [fst]. now rewrite H0, H1.
    + now rewrite !(simulate_streaming_raises json_dumps cfg rd _ e Hc).
  - intros Hc Hcreated.
    destruct (has_choices_true_inv _ Hc) as (kv & choice & rest & Heq & Hl).
    apply (Husable kv choice rest Heq Hl). unfold base_at, get_or.
    destruct (field "created" rd); [reflexivity|contradiction].
Qed.

Lemma chunks_determined_up_to_clock_witness :
  fst (_simulate_streaming const_dumps (config_with_chunk_size (Some 5))
         hello_completion (world_at 0))
  = fst (_simulate_streaming const_dumps (config_with_chunk_size (Some 5))
           hello_completion (world_at 86400)).
Proof.
  exact (proj2 (chunks_determined_up_to_clock const_dumps (config_with_chunk_size (Some 5))
                  hello_completion (world_at 0) (world_at 86400))
           eq_refl ltac:(discriminate)).
Defined.

(** C6, as stated, fails: a completion without [created] run at two times
    yields chunks that differ in their [created]. *)
Lemma chunks_depend_on_clock :
  exists chunks1 chunks2,
    fst (_simulate_streaming const_dumps (config_with_chunk_size None)
           tool_completion (world_at 1000)) = Ret chunks1 /\
    fst (_simulate_streaming const_dumps (config_with_chunk_size None)
           tool_completion (world_at 2000)) = Ret chunks2 /\
    map (field "created") chunks1 = [Some (JInt 1000)] /\
    map (field "created") chunks2 = [Some (JInt 2000)].
Proof. eexists _, _. repeat split. Qed.

(** * The handler *)

Section HandlerFacts.

Variable py_int : string -> option Z.
Variable decode_utf8 : string -> option str.
Variable json_loads : str -> loaded.
Variable json_dumps : json -> string.
Variable response_json : string -> loaded.
Variable requests_request : backend_call -> response + raised.
Variable self_config : config.

Local Abbreviation perform := (_perform_request requests_request self_config).
Local Abbreviation call_of := (outbound_call self_config).
Local Abbreviation handle := (handle_response json_dumps response_json self_config).
Local Abbreviation post :=
  (do_POST py_int decode_utf8 json_loads json_dumps response_json requests_request
     self_config).

(** The run of [_perform_request] when the backend raises. *)
Lemma perform_request_fault method path headers data json_data e w :
  requests_request (call_of method path headers data json_data) = inr e ->
  exists message,
    perform method path headers data json_data w =
      (Ret None,
       {| clock := clock w;
          trace := trace w ++ [RequestsRequest (call_of method path headers data json_data);
                               SendError (status_by_class (raised_class e)) message] |}).
Proof.
  intro H; unfold _perform_request, bind, emit, ret; cbn; rewrite H.
  destruct e as [c text]; destruct c; cbn; rewrite <- app_assoc; cbn;
    eexists; reflexivity.
Qed.

(** The run of [do_POST] on a body that does not parse: what it leaves in
    the trace, by the step that fails. *)
Lemma do_POST_unparsed req w :
  match header_get (headers req) "Content-Length" with
  | None => post req w = (Raise TypeError, w)
  | Some v =>
      match py_int v with
      | None => post req w = (Raise ValueError, w)
      | Some n =>
          let w1 := {| clock := clock w; trace := trace w ++ [RfileRead n] |} in
          match rfile_read (rfile req) n with
          | Raise e => post req w = (Raise e, w1)
          | Ret bytes =>
              match decode_utf8 bytes with
              | None => post req w = (Raise UnicodeDecodeError, w1)
              | Some text =>
                  match json_loads text with
                  | Loaded _ => True
                  | JSONDecodeError =>
                      post req w =
                        (Ret tt,
                         {| clock := clock w;
                            trace := trace w ++
                                     [RfileRead n;
                                      SendError 400 "Bad Request: Invalid JSON payload"] |})
                  | LoadError e => post req w = (Raise e, w1)
                  end
              end
          end
      end
  end.
Proof.
  destruct (header_get (headers req) "Content-Length") as [v|] eqn:Hh.
  2: { unfold do_POST, bind at 1, lift at 1. now rewrite Hh. }
  destruct (py_int v) as [n|] eqn:Hi.
  2: { unfold do_POST, bind at 1, lift at 1. now rewrite Hh, Hi. }
  cbv zeta.
  destruct (rfile_read (rfile req) n) as [bytes|e] eqn:Hr.
  2: { unfold do_POST, bind at 1, lift at 1. rewrite Hh, Hi.
       unfold bind at 1, emit at 1. unfold bind at 1, lift at 1. now rewrite Hr. }
  destruct (decode_utf8 bytes) as [text|] eqn:Hd.
  2: { unfold do_POST, bind at 1, lift at 1. rewrite Hh, Hi.
       unfold bind at 1, emit at 1. unfold bind at 1, lift at 1. now rewrite Hr, Hd. }
  destruct (json_loads text) as [request_data| |e] eqn:Hj; [exact I| |];
    unfold do_POST, bind at 1, lift at 1; rewrite Hh, Hi;
    unfold bind at 1, emit at 1; unfold bind at 1, lift at 1; rewrite Hr, Hd, Hj.
  - unfold emit. cbn [clock trace]. now rewrite <- app_assoc.
  - reflexivity.
Qed.

(** The run of [handle_response] on a 200 answer labelled JSON whose body
    [response.json()] rejects with [json.JSONDecodeError]. *)
Lemma handle_response_unparseable r w :
  status_code r = 200 ->
  contains (header_get_or (response_headers r) "Content-Type" "") "application/json" = true ->
  response_json (content r) = JSONDecodeError ->
  handle (Some r) w =
    (Ret tt,
     {| clock := clock w;
        trace := trace w ++
                 [SendResponse 200;
                  SendHeader "Content-Type" "text/event-stream";
                  SendHeader "Cache-Control" "no-cache";
                  SendHeader "Connection" "close";
                  EndHeaders;
                  Write (content r)] |}).
Proof.
  intros Hs Hc Hj. unfold handle_response, response_ok. rewrite Hs, Hc. cbn.
  unfold simulate. rewrite Hj. unfold bind, emit. cbn.
  now rewrite <- !app_assoc.
Qed.



(** C10: a POST without a [Content-Length], or with one that [int] does
    not read, raises ([TypeError], [ValueError]) with nothing read from the
    request, nothing sent and the backend not called; so a run of [do_POST]
    that reads, sends or calls anything had a [Content-Length] that [int]
    reads. *)
Theorem content_length_required req w :
  (header_get (headers req) "Content-Length" = None ->
   post req w = (Raise TypeError, w)) /\
  (forall v, header_get (headers req) "Content-Length" = Some v -> py_int v = None ->
   post req w = (Raise ValueError, w)) /\
  (forall outcome w' event events,
     post req w = (outcome, w') ->
     events_of_run w w' (event :: events) ->
     exists v n, header_get (headers req) "Content-Length" = Some v /\ py_int v = Some n).
Proof.
  pose proof (do_POST_unparsed req w) as H. repeat split.
  - intros Hh. now rewrite Hh in H.
  - intros v Hh Hi. now rewrite Hh, Hi in H.
  - intros outcome w' event events Hrun Hev. unfold events_of_run in Hev.
    destruct (header_get (headers req) "Content-Length") as [v|] eqn:Hh;
      [destruct (py_int v) as [n|] eqn:Hi; [now exists v, n|]|];
      rewrite H in Hrun; injection Hrun as _ <-;
      rewrite <- (app_nil_r (trace w)) in Hev at 1;
      apply app_inv_head in Hev; discriminate Hev.
Qed.

End HandlerFacts.

(** C3: the code departs from the claim.  On a 200 answer labelled JSON
    with the body [oops], which [response.json()] rejects, the client is
    sent the headers of the event stream, already out when the body is
    parsed, and none of the backend's, then the body; the passthrough of
    lines 168-175, which the claim names and the comment of line 157 aims
    at, sends on the same answer its [Content-Type], [Content-Length] and
    [Date]. *)
Lemma fallback_is_not_passthrough :
  status_code broken_json_response = 200 /\
  contains (header_get_or (response_headers broken_json_response) "Content-Type" "")
    "application/json" = true /\
  example_response_json (content broken_json_response) = JSONDecodeError /\
  trace (snd (do_POST example_int example_decode example_loads const_dumps
                example_response_json (backend_answers broken_json_response)
                example_config (post_request [("Content-Length", "2")] "{}") (world_at 0)))
  = [RfileRead 2;
     RequestsRequest
       (outbound_call example_config "POST" "/v1/chat/completions"
          [("Content-Length", "2")] None (Some (JObj [(lit "stream", JBool false)])));
     SendResponse 200;
     SendHeader "Content-Type" "text/event-stream";
     SendHeader "Cache-Control" "no-cache";
     SendHeader "Connection" "close";
     EndHeaders;
     Write "oops"] /\
  trace (snd (passthrough broken_json_response (world_at 0)))
  = [SendResponse 200;
     SendHeader "Content-Type" "application/json";
     SendHeader "Content-Length" "4";
     SendHeader "Date" "Wed, 04 Nov 2026 00:00:00 GMT";
     EndHeaders;
     Write "oops";
     Flush].
Proof. repeat split. Qed.







Lemma content_length_required_witness :
  do_POST example_int example_decode example_loads const_dumps example_response_json
    (backend_answers broken_json_response) example_config
    (post_request [("Content-Type", "application/json")] "{}") (world_at 0)
  = (Raise TypeError, world_at 0) /\
  do_POST example_int example_decode example_loads const_dumps example_response_json
    (backend_answers broken_json_response) example_config
    (post_request [("Content-Length", "two")] "{}") (world_at 0)
  = (Raise ValueError, world_at 0).
Proof.
  split.
  - exact (proj1 (content_length_required example_int example_decode example_loads
                    const_dumps example_response_json (backend_answers broken_json_response)
                    example_config (post_request [("Content-Type", "application/json")] "{}")
                    (world_at 0)) eq_refl).
  - exact (proj1 (proj2 (content_length_required example_int example_decode example_loads
                           const_dumps example_response_json
                           (backend_answers broken_json_response) example_config
                           (post_request [("Content-Length", "two")] "{}") (world_at 0)))
             "two" eq_refl eq_refl).
Defined.

(** * Further properties of the emitter *)

Section EmitterEdges.
Variable json_dumps : json -> string.

(** The run on a completion whose first choice is a [dict] with a [dict]
    for message (or none): the clock is read once and the branches decide. *)
Lemma simulate_streaming_message cfg rd w choice rest ckv mkv :
  field "choices" rd = Some (JArr (choice :: rest)) ->
  choice = JObj ckv ->
  get_or "message" choice (JObj []) = JObj mkv ->
  _simulate_streaming json_dumps cfg rd w =
    (branch_chunks (base_at rd (clock w 0%nat))
       (get_or "tool_calls" (JObj mkv) JNull)
       (get_or "content" (JObj mkv) (JStr []))
       (streaming_chunk_size_of cfg),
     tick w).
Proof.
  intros Hc -> Hm.
  rewrite (simulate_streaming_usable json_dumps cfg rd w _ _ Hc).
  rewrite dict_get_obj, Hm. now rewrite !dict_get_obj.
Qed.

Lemma message_of_fields choice message s :
  field "message" choice = Some message ->
  field "content" message = Some (JStr s) ->
  exists ckv mkv,
    choice = JObj ckv /\ message = JObj mkv /\
    get_or "message" choice (JObj []) = JObj mkv /\
    get_or "content" (JObj mkv) (JStr []) = JStr s.
Proof.
  intros Hm Hc.
  destruct (field_obj _ _ _ Hm) as [ckv ->]. destruct (field_obj _ _ _ Hc) as [mkv ->].
  exists ckv, mkv. unfold get_or. now rewrite Hm, Hc.
Qed.

(** [range(0, L, step)] on a negative step and a positive [L] is empty. *)
Lemma range_loop_negative_step fuel L step :
  step < 0 -> 0 <= L -> range_loop fuel 0 L step = [].
Proof.
  intros Hs HL. destruct fuel as [|fuel]; [reflexivity|]. cbn [range_loop].
  destruct (Z.ltb_spec 0 step); [lia|]. destruct (Z.ltb_spec L 0); [lia|reflexivity].
Qed.

(** X10: with content to stream and a chunk size of zero the generator
    raises [ValueError] ([range] refuses a zero step) and yields nothing. *)
Theorem zero_chunk_size_raises cfg rd w choice rest message s :
  field "choices" rd = Some (JArr (choice :: rest)) ->
  field "message" choice = Some message ->
  field "content" message = Some (JStr s) ->
  s <> [] ->
  truthy (get_or "tool_calls" message JNull) = false ->
  streaming_chunk_size_of cfg = 0 ->
  fst (_simulate_streaming json_dumps cfg rd w) = Raise ValueError.
Proof.
  intros Hc Hm Hs Hne Ht Hz.
  destruct (message_of_fields _ _ _ Hm Hs) as (ckv & mkv & Hck & -> & Hgm & Hgc).
  rewrite (simulate_streaming_message cfg rd w _ _ _ _ Hc Hck Hgm), Hgc, Hz.
  cbn [fst]. unfold branch_chunks. rewrite Ht.
  destruct s; [contradiction|reflexivity].
Qed.

(** X11: with content to stream and a negative chunk size the loop does not
    run: the content is dropped and the one chunk yielded is the terminal
    one, with an empty delta and ["stop"]. *)
Theorem negative_chunk_size_drops_content cfg rd w choice rest message s :
  field "choices" rd = Some (JArr (choice :: rest)) ->
  field "message" choice = Some message ->
  field "content" message = Some (JStr s) ->
  s <> [] ->
  truthy (get_or "tool_calls" message JNull) = false ->
  streaming_chunk_size_of cfg < 0 ->
  fst (_simulate_streaming json_dumps cfg rd w) =
    Ret [chunk_of (base_at rd (clock w 0%nat)) (JObj []) (JStr (lit "stop"))].
Proof.
  intros Hc Hm Hs Hne Ht Hz.
  destruct (message_of_fields _ _ _ Hm Hs) as (ckv & mkv & Hck & -> & Hgm & Hgc).
  rewrite (simulate_streaming_message cfg rd w _ _ _ _ Hc Hck Hgm), Hgc.
  cbn [fst]. unfold branch_chunks. rewrite Ht.
  assert (Htruthy : truthy (JStr s) = true) by (destruct s; [contradiction|reflexivity]).
  rewrite Htruthy. cbn [truthy py_len res_bind]. unfold py_range.
  destruct (Z.eqb_spec (streaming_chunk_size_of cfg) 0); [lia|].
  cbn [res_bind]. rewrite range_loop_negative_step by lia. reflexivity.
Qed.

(** X12: when the first choice has neither content nor tool calls to send
    (each absent, [None], empty or otherwise false, the message itself
    possibly absent), the run yields exactly one chunk, with an empty delta
    and ["stop"], whatever the chunk size. *)
Theorem nothing_to_send_one_stop_chunk cfg rd w choice rest ckv mkv :
  field "choices" rd = Some (JArr (choice :: rest)) ->
  choice = JObj ckv ->
  get_or "message" choice (JObj []) = JObj mkv ->
  truthy (get_or "tool_calls" (JObj mkv) JNull) = false ->
  truthy (get_or "content" (JObj mkv) (JStr [])) = false ->
  fst (_simulate_streaming json_dumps cfg rd w) =
    Ret [chunk_of (base_at rd (clock w 0%nat)) (JObj []) (JStr (lit "stop"))].
Proof.
  intros Hc Hck Hgm Ht Hn.
  rewrite (simulate_streaming_message cfg rd w _ _ _ _ Hc Hck Hgm).
  cbn [fst]. unfold branch_chunks. now rewrite Ht, Hn.
Qed.

(** X13: in a streamed content the first chunk's delta names the role
    ["assistant"], and no later content chunk has a role. *)
Theorem role_only_on_first_chunk cfg rd w choice rest message s :
  field "choices" rd = Some (JArr (choice :: rest)) ->
  field "message" choice = Some message ->
  field "content" message = Some (JStr s) ->
  s <> [] ->
  truthy (get_or "tool_calls" message JNull) = false ->
  0 < streaming_chunk_size_of cfg ->
  exists texts terminal,
    fst (_simulate_streaming json_dumps cfg rd w) = Ret (texts ++ [terminal]) /\
    texts <> [] /\
    delta_role (nth 0 texts JNull) = Some (JStr (lit "assistant")) /\
    (forall k, (0 < k < List.length texts)%nat -> delta_role (nth k texts JNull) = None) /\
    delta_role terminal = None.
Proof.
  intros Hc Hm Hs Hne Ht Hz.
  destruct (message_of_fields _ _ _ Hm Hs) as (ckv & mkv & Hck & -> & Hgm & Hgc).
  rewrite (simulate_streaming_message cfg rd w _ _ _ _ Hc Hck Hgm), Hgc.
  cbn [fst]. unfold branch_chunks. rewrite Ht.
  assert (Htruthy : truthy (JStr s) = true) by (destruct s; [contradiction|reflexivity]).
  rewrite Htruthy. cbn [truthy py_len res_bind]. unfold py_range.
  set (C := streaming_chunk_size_of cfg) in *.
  destruct (Z.eqb_spec C 0); [lia|]. cbn [res_bind].
  rewrite content_chunks_str. cbn [res_bind].
  set (L := Z.of_nat (List.length s)).
  assert (HL : 0 < L) by (subst L; destruct s; [contradiction|cbn [List.length]; lia]).
  set (indices := range_loop (Z.to_nat (Z.abs (L - 0))) 0 L C).
  assert (Hfuel : L - 0 <= Z.of_nat (Z.to_nat (Z.abs (L - 0)))) by lia.
  assert (Hlen : Z.of_nat (List.length indices) = ceil_div L C).
  { subst indices. rewrite (range_loop_length L C Hz _ 0 Hfuel).
    destruct (Z.ltb_spec 0 L); [f_equal; lia|lia]. }
  assert (Hpos : 0 < ceil_div L C) by (pose proof (ceil_div_bounds L C Hz HL); nia).
  assert (Hnth : forall k, (k < List.length indices)%nat ->
                           nth k indices 0 = Z.of_nat k * C).
  { intros k Hk. subst indices. rewrite (range_loop_nth L C Hz _ 0 k Hfuel Hk). lia. }
  set (mk := fun i => chunk_of (base_at rd (clock w 0%nat))
                        (text_delta i (JStr (slice s i (i + C)))) JNull).
  assert (Hrole : forall k, (k < List.length indices)%nat ->
            delta_role (nth k (map mk indices) JNull)
            = if (k =? 0)%nat then Some (JStr (lit "assistant")) else None).
  { intros k Hk.
    rewrite (nth_indep _ JNull (mk 0)) by (rewrite length_map; exact Hk).
    rewrite map_nth, (Hnth k Hk). subst mk. cbv beta.
    unfold delta_role. rewrite delta_chunk_of. unfold text_delta.
    destruct k as [|k]; [reflexivity|].
    destruct (Z.eqb_spec (Z.of_nat (S k) * C) 0); [nia|reflexivity]. }
  exists (map mk indices), (chunk_of (base_at rd (clock w 0%nat)) (JObj []) (JStr (lit "stop"))).
  split; [reflexivity|]. split.
  { intros Hnil. apply (f_equal (@List.length json)) in Hnil.
    rewrite length_map in Hnil. cbn in Hnil. lia. }
  split; [apply (Hrole 0%nat); lia|]. split.
  - intros k [Hk0 Hk]. rewrite length_map in Hk. rewrite (Hrole k Hk).
    destruct k; [lia|reflexivity].
  - reflexivity.
Qed.

(** X14: on a response that is not a [dict] (a list, a string, a number, a
    boolean, [None]) the generator raises, [TypeError] or [AttributeError],
    with nothing yielded and the clock not read. *)
Theorem non_dict_response_raises cfg rd w :
  is_dict rd = false ->
  exists e,
    _simulate_streaming json_dumps cfg rd w = (Raise e, w) /\
    (e = TypeError \/ e = AttributeError).
Proof.
  intros Hd. unfold _simulate_streaming, has_choices, bind, lift.
  destruct rd as [| | | | s|l|kv]; try discriminate Hd; cbn [py_in res_bind];
    try (exists TypeError; split; [reflexivity|now left]).
  - destruct (is_infix (lit "choices") s); cbn [getitem res_bind];
      [exists TypeError|exists AttributeError]; split; auto.
  - destruct (existsb _ l); cbn [getitem res_bind];
      [exists TypeError|exists AttributeError]; split; auto.
Qed.

(** X15: a [dict] without a non-empty list of choices (an error object of
    the backend, say) is handed on whole: the run yields two chunks, the
    first with [json.dumps] of the response for its delta's content and no
    finish reason, the second with an empty delta and ["stop"]. *)
Theorem unusable_response_wrapped cfg kv w :
  (forall choice rest, lookup (lit "choices") kv <> Some (JArr (choice :: rest))) ->
  exists first second,
    fst (_simulate_streaming json_dumps cfg (JObj kv) w) = Ret [first; second] /\
    delta first = Some (JObj [(lit "content", JStr (lit (json_dumps (JObj kv))))]) /\
    finish_reason first = Some JNull /\
    delta second = Some (JObj []) /\
    finish_reason second = Some (JStr (lit "stop")).
Proof.
  intros Hno.
  assert (Hc : has_choices (JObj kv) = Ret false).
  { unfold has_choices. cbn [py_in res_bind getitem].
    destruct (lookup (lit "choices") kv) as [v|] eqn:E; [|reflexivity].
    cbn [res_bind]. destruct v as [| | | | |[|c r]|]; try reflexivity.
    now destruct (Hno c r). }
  rewrite (simulate_streaming_unusable json_dumps cfg (JObj kv) w Hc).
  eexists _, _. split; [reflexivity|]. repeat split.
Qed.

End EmitterEdges.

Lemma zero_chunk_size_raises_witness :
  fst (_simulate_streaming const_dumps (config_with_chunk_size (Some 0))
         hello_completion (world_at 0)) = Raise ValueError.
Proof.
  exact (zero_chunk_size_raises const_dumps (config_with_chunk_size (Some 0))
           hello_completion (world_at 0)
           (JObj [(lit "index", JInt 0);
                  (lit "message",
                   JObj [(lit "role", JStr (lit "assistant"));
                         (lit "content", JStr (lit "Hello, world!"))])])
           []
           (JObj [(lit "role", JStr (lit "assistant"));
                  (lit "content", JStr (lit "Hello, world!"))])
           (lit "Hello, world!")
           eq_refl eq_refl eq_refl ltac:(discriminate) eq_refl eq_refl).
Defined.

Lemma negative_chunk_size_drops_content_witness :
  fst (_simulate_streaming const_dumps (config_with_chunk_size (Some (-3)))
         hello_completion (world_at 0))
  = Ret [chunk_of (base_at hello_completion 0) (JObj []) (JStr (lit "stop"))].
Proof.
  exact (negative_chunk_size_drops_content const_dumps (config_with_chunk_size (Some (-3)))
           hello_completion (world_at 0)
           (JObj [(lit "index", JInt 0);
                  (lit "message",
                   JObj [(lit "role", JStr (lit "assistant"));
                         (lit "content", JStr (lit "Hello, world!"))])])
           []
           (JObj [(lit "role", JStr (lit "assistant"));
                  (lit "content", JStr (lit "Hello, world!"))])
           (lit "Hello, world!")
           eq_refl eq_refl eq_refl ltac:(discriminate) eq_refl eq_refl).
Defined.

Lemma nothing_to_send_one_stop_chunk_witness :
  fst (_simulate_streaming const_dumps (config_with_chunk_size None)
         silent_completion (world_at 7))
  = Ret [chunk_of (base_at silent_completion 7) (JObj []) (JStr (lit "stop"))].
Proof.
  exact (nothing_to_send_one_stop_chunk const_dumps (config_with_chunk_size None)
           silent_completion (world_at 7)
           (JObj [(lit "index", JInt 0);
                  (lit "message",
                   JObj [(lit "role", JStr (lit "assistant")); (lit "content", JNull)])])
           []
           [(lit "index", JInt 0);
            (lit "message",
             JObj [(lit "role", JStr (lit "assistant")); (lit "content", JNull)])]
           [(lit "role", JStr (lit "assistant")); (lit "content", JNull)]
           eq_refl eq_refl eq_refl eq_refl eq_refl).
Defined.

Lemma role_only_on_first_chunk_witness :
  exists texts terminal,
    fst (_simulate_streaming const_dumps (config_with_chunk_size (Some 5))
           hello_completion (world_at 0)) = Ret (texts ++ [terminal]) /\
    delta_role (nth 0 texts JNull) = Some (JStr (lit "assistant")) /\
    (forall k, (0 < k < List.length texts)%nat -> delta_role (nth k texts JNull) = None).
Proof.
  destruct (role_only_on_first_chunk const_dumps (config_with_chunk_size (Some 5))
              hello_completion (world_at 0)
              (JObj [(lit "index", JInt 0);
                     (lit "message",
                      JObj [(lit "role", JStr (lit "assistant"));
                            (lit "content", JStr (lit "Hello, world!"))])])
              []
              (JObj [(lit "role", JStr (lit "assistant"));
                     (lit "content", JStr (lit "Hello, world!"))])
              (lit "Hello, world!")
              eq_refl eq_refl eq_refl ltac:(discriminate) eq_refl eq_refl)
    as (texts & terminal & Hrun & _ & Hfirst & Hlater & _).
  exists texts, terminal. repeat split; assumption.
Defined.

Lemma non_dict_response_raises_witness :
  exists e,
    _simulate_streaming const_dumps (config_with_chunk_size None) (JArr []) (world_at 0)
    = (Raise e, world_at 0) /\
    (e = TypeError \/ e = AttributeError).
Proof.
  exact (non_dict_response_raises const_dumps (config_with_chunk_size None) (JArr [])
           (world_at 0) eq_refl).
Defined.

Lemma unusable_response_wrapped_witness :
  exists first second,
    fst (_simulate_streaming const_dumps (config_with_chunk_size None) error_object
           (world_at 0)) = Ret [first; second] /\
    delta first = Some (JObj [(lit "content", JStr (lit (const_dumps error_object)))]) /\
    finish_reason first = Some JNull /\
    delta second = Some (JObj []) /\
    finish_reason second = Some (JStr (lit "stop")).
Proof.
  exact (unusable_response_wrapped const_dumps (config_with_chunk_size None)
           [(lit "error", JStr (lit "overloaded"))] (world_at 0)
           ltac:(intros choice rest; discriminate)).
Defined.

(** * Further properties of the handler *)

(** ** The body in blocks *)

Lemma substring_0_all (s : string) : substring 0 (String.length s) s = s.
Proof. induction s as [|c s IH]; cbn; [reflexivity|now rewrite IH]. Qed.

Lemma substring_split (n : nat) (s : string) :
  (substring 0 n s ++ substring n (String.length s - n) s)%string = s.
Proof.
  revert s. induction n as [|n IH]; intros s.
  - rewrite Nat.sub_0_r, substring_0_all. now destruct s.
  - destruct s as [|c s]; [reflexivity|]. cbn. now rewrite IH.
Qed.

Lemma length_substring_head (n : nat) (s : string) :
  String.length (substring 0 n s) = Nat.min n (String.length s).
Proof.
  revert s. induction n as [|n IH]; intros s.
  - now destruct s.
  - destruct s as [|c s]; [reflexivity|]. cbn. now rewrite IH.
Qed.

Lemma length_substring_rest (n : nat) (s : string) :
  String.length (substring n (String.length s - n) s) = (String.length s - n)%nat.
Proof.
  revert s. induction n as [|n IH]; intros s.
  - now rewrite Nat.sub_0_r, substring_0_all.
  - destruct s as [|c s]; [reflexivity|]. cbn. now rewrite IH.
Qed.

(** With a positive size the blocks are the body cut in order: they join
    to the body, none is empty and none is longer than the size. *)
Lemma blocks_cut (fuel n : nat) (body : string) :
  (0 < n)%nat -> (String.length body <= fuel)%nat ->
  joined (blocks fuel n body) = body /\
  Forall (fun b => (0 < String.length b <= n)%nat) (blocks fuel n body).
Proof.
  intros Hn. revert body. induction fuel as [|fuel IH]; intros body Hfuel.
  - destruct body; [split; [reflexivity|constructor]|cbn in Hfuel; lia].
  - cbn [blocks]. destruct body as [|c body]; [split; [reflexivity|constructor]|].
    set (s := String c body) in *.
    assert (Hs : (0 < String.length s)%nat) by (cbn; lia).
    destruct (IH (substring n (String.length s - n) s)) as [Hjoin Hall].
    { rewrite length_substring_rest. lia. }
    split.
    + cbn [joined fold_right]. fold (joined (blocks fuel n (substring n (String.length s - n) s))).
      rewrite Hjoin. apply substring_split.
    + constructor; [|exact Hall]. rewrite length_substring_head. lia.
Qed.

Lemma iter_content_cut (body : string) :
  joined (iter_content 8192 body) = body /\
  Forall (fun b => 0 < Z.of_nat (String.length b) <= 8192) (iter_content 8192 body).
Proof.
  unfold iter_content.
  destruct (blocks_cut (String.length body) (Z.to_nat 8192) body) as [Hjoin Hall];
    [lia|lia|].
  split; [exact Hjoin|]. eapply Forall_impl; [|exact Hall]. cbv beta. intros b Hb. lia.
Qed.

(** ** Runs of the handler *)

Lemma emit_all_run (events : list event) (w : world) :
  emit_all events w = (Ret tt, {| clock := clock w; trace := trace w ++ events |}).
Proof.
  revert w; induction events as [|e rest IH]; intro w; cbn [emit_all].
  - unfold ret; destruct w; cbn; now rewrite app_nil_r.
  - unfold bind, emit; rewrite IH; cbn; now rewrite <- app_assoc.
Qed.

Lemma backend_calls_app (a b : list event) :
  backend_calls (a ++ b) = backend_calls a ++ backend_calls b.
Proof. apply flat_map_app. Qed.

Lemma no_calls_in_writes (pieces : list string) : backend_calls (map Write pieces) = [].
Proof. induction pieces; [reflexivity|assumption]. Qed.

Lemma no_calls_in_headers (hs : list (string * string)) :
  backend_calls (map (fun kv => SendHeader (fst kv) (snd kv)) hs) = [].
Proof. induction hs; [reflexivity|assumption]. Qed.

(** What an answer handed on amounts to: the status is the backend's, each
    header sent is one of the backend's under one of the three names, the
    blocks written join to the body, each of at most 8192 bytes, and the
    backend is not called. *)
Lemma relayed_faithful (r : response) :
  (exists hs blocks,
     relayed r = SendResponse (status_code r)
                 :: map (fun kv => SendHeader (fst kv) (snd kv)) hs
                 ++ EndHeaders :: map Write blocks /\
     (forall k v, In (k, v) hs <->
                  In (k, v) (response_headers r) /\ is_forwarded_header k = true) /\
     joined blocks = content r /\
     Forall (fun b => 0 < Z.of_nat (String.length b) <= 8192) blocks) /\
  backend_calls (relayed r) = [].
Proof.
  destruct (iter_content_cut (content r)) as [Hjoin Hall]. split.
  - eexists _, _. split; [reflexivity|]. split; [|split; [exact Hjoin|exact Hall]].
    intros k v. rewrite filter_In. reflexivity.
  - unfold relayed.
    change (SendResponse (status_code r) :: ?l) with ([SendResponse (status_code r)] ++ l).
    rewrite !backend_calls_app, no_calls_in_headers.
    change (EndHeaders :: ?l) with ([EndHeaders] ++ l).
    now rewrite backend_calls_app, no_calls_in_writes.
Qed.

Lemma passthrough_run (r : response) (w : world) :
  passthrough r w =
    (Ret tt, {| clock := clock w; trace := trace w ++ relayed r ++ [Flush] |}).
Proof.
  unfold passthrough, bind at 1, emit at 1. unfold bind at 1. rewrite emit_all_run.
  unfold bind at 1, emit at 1. unfold bind at 1. rewrite emit_all_run.
  unfold emit, relayed. cbn [clock trace]. f_equal. f_equal.
  rewrite <- !app_assoc. cbn [app]. rewrite <- !app_assoc. reflexivity.
Qed.

Section EmitterFrame.
Variable json_dumps : json -> string.

(** The generator reads the clock and nothing else of the world, and
    leaves the trace as it is. *)
Lemma simulate_streaming_frame cfg rd w t :
  _simulate_streaming json_dumps cfg rd {| clock := clock w; trace := t |} =
    (fst (_simulate_streaming json_dumps cfg rd w),
     {| clock := clock (snd (_simulate_streaming json_dumps cfg rd w)); trace := t |}).
Proof.
  destruct (has_choices rd) as [[|]|e] eqn:Hc.
  - destruct (has_choices_true_inv _ Hc) as (kv & choice & rest & -> & Hl).
    rewrite !(simulate_streaming_usable json_dumps cfg (JObj kv) _ choice rest Hl).
    destruct (dict_get choice (lit "message") (JObj [])) as [message|e]; [|reflexivity].
    destruct (dict_get message (lit "content") (JStr []));
      destruct (dict_get message (lit "tool_calls") JNull); reflexivity.
  - rewrite !(simulate_streaming_unusable json_dumps cfg rd _ Hc).
    destruct rd; reflexivity.
  - unfold _simulate_streaming, bind, lift. now rewrite Hc.
Qed.

End EmitterFrame.

Lemma str_eqb_eq (a b : str) : str_eqb a b = true <-> a = b.
Proof.
  revert b. induction a as [|x a IH]; intros [|y b]; cbn; split; try easy.
  - intros H. apply andb_true_iff in H as [Hx Hr].
    apply N.eqb_eq in Hx. apply IH in Hr. now subst.
  - intros H. injection H as -> ->. rewrite N.eqb_refl. now apply IH.
Qed.

(** [d[k] = v] and a later lookup: the key holds [v], every other key what
    it held. *)
Lemma lookup_set_item (kv : list (str * json)) (k : str) (v : json) :
  lookup k (set_item kv k v) = Some v /\
  (forall k', k' <> k -> lookup k' (set_item kv k v) = lookup k' kv).
Proof.
  assert (Hrefl : str_eqb k k = true) by now apply str_eqb_eq.
  split.
  - induction kv as [|[k1 v1] kv IH]; cbn [set_item lookup].
    + now rewrite Hrefl.
    + destruct (str_eqb k k1) eqn:E; cbn [lookup]; rewrite E; [reflexivity|exact IH].
  - intros k' Hne.
    assert (Hk' : str_eqb k' k = false).
    { destruct (str_eqb k' k) eqn:E; [|reflexivity]. apply str_eqb_eq in E. contradiction. }
    induction kv as [|[k1 v1] kv IH]; cbn [set_item lookup].
    + now rewrite Hk'.
    + destruct (str_eqb k k1) eqn:E; cbn [lookup].
      * apply str_eqb_eq in E. subst k1. now rewrite Hk'.
      * destruct (str_eqb k' k1); [reflexivity|exact IH].
Qed.

Section HandlerRuns.

Variable py_int : string -> option Z.
Variable decode_utf8 : string -> option str.
Variable json_loads : str -> loaded.
Variable json_dumps : json -> string.
Variable response_json : string -> loaded.
Variable requests_request : backend_call -> response + raised.
Variable self_config : config.

Local Abbreviation perform := (_perform_request requests_request self_config).
Local Abbreviation call_of := (outbound_call self_config).
Local Abbreviation handle := (handle_response json_dumps response_json self_config).
Local Abbreviation post :=
  (do_POST py_int decode_utf8 json_loads json_dumps response_json requests_request
     self_config).
Local Abbreviation get := (do_GET requests_request self_config).
Local Abbreviation emitter := (_simulate_streaming json_dumps self_config).

(** The events of the chunks of a stream, each written and flushed. *)
Local Abbreviation streamed chunks :=
  (flat_map (fun chunk => [Write (sse_event (json_dumps chunk)); Flush]) chunks).

Lemma no_calls_in_stream (chunks : list json) : backend_calls (streamed chunks) = [].
Proof. induction chunks; [reflexivity|assumption]. Qed.

(** The run of [_perform_request] when the backend answers. *)
Lemma perform_request_answer method path headers data json_data r w :
  requests_request (call_of method path headers data json_data) = inl r ->
  perform method path headers data json_data w =
    (Ret (Some r),
     {| clock := clock w;
        trace := trace w ++ [RequestsRequest (call_of method path headers data json_data)] |}).
Proof.
  intro H; unfold _perform_request, bind, emit, ret; cbn; now rewrite H.
Qed.

(** The run of the event stream (lines 147-165). *)
Lemma simulate_run r w :
  simulate json_dumps response_json self_config r w =
    match response_json (content r) with
    | JSONDecodeError =>
        (Ret tt, {| clock := clock w; trace := trace w ++ sse_head ++ [Write (content r)] |})
    | LoadError e => (Raise e, {| clock := clock w; trace := trace w ++ sse_head |})
    | Loaded rd =>
        match fst (emitter rd w) with
        | Ret chunks =>
            (Ret tt,
             {| clock := clock (snd (emitter rd w));
                trace := trace w ++ sse_head ++ streamed chunks
                         ++ [Write (sse_event "[DONE]"); Flush] |})
        | Raise e =>
            (Raise e, {| clock := clock (snd (emitter rd w)); trace := trace w ++ sse_head |})
        end
    end.
Proof.
  unfold simulate.
  do 5 (unfold bind at 1, emit at 1; cbn [clock trace]).
  rewrite <- !app_assoc. cbn [app]. fold sse_head.
  destruct (response_json (content r)) as [rd| |e].
  - unfold bind at 1.
    rewrite (simulate_streaming_frame json_dumps self_config rd w (trace w ++ sse_head)).
    destruct (fst (emitter rd w)) as [chunks|e]; [|reflexivity].
    unfold bind at 1. rewrite emit_all_run. unfold bind, emit. cbn [clock trace].
    rewrite <- !app_assoc. reflexivity.
  - unfold emit. cbn [clock trace]. now rewrite <- app_assoc.
  - reflexivity.
Qed.

(** Whatever [handle_response] does, it appends events and does not call
    the backend. *)
Lemma handle_response_quiet result w :
  exists events,
    trace (snd (handle result w)) = trace w ++ events /\ backend_calls events = [].
Proof.
  assert (Hnil : exists events, trace w = trace w ++ events /\ backend_calls events = []).
  { exists []. now rewrite app_nil_r. }
  destruct result as [r|]; [|exact Hnil]. unfold handle_response.
  destruct (response_ok r); [|exact Hnil].
  destruct ((status_code r =? 200) && _).
  - rewrite simulate_run. destruct (response_json (content r)) as [rd| |e'].
    + destruct (fst (emitter rd w)) as [chunks|e]; cbn [snd trace].
      * eexists. split; [reflexivity|].
        now rewrite !backend_calls_app, no_calls_in_stream.
      * eexists. split; [reflexivity|reflexivity].
    + eexists. split; [reflexivity|reflexivity].
    + eexists. split; [reflexivity|reflexivity].
  - rewrite passthrough_run. cbn [snd trace]. eexists. split; [reflexivity|].
    rewrite backend_calls_app. now rewrite (proj2 (relayed_faithful r)).
Qed.

(** The run of [do_POST] once the body is parsed. *)
Lemma do_POST_parsed req w v n bytes text request_data :
  header_get (headers req) "Content-Length" = Some v ->
  py_int v = Some n ->
  rfile_read (rfile req) n = Ret bytes ->
  decode_utf8 bytes = Some text ->
  json_loads text = Loaded request_data ->
  post req w =
    (let w1 := {| clock := clock w; trace := trace w ++ [RfileRead n] |} in
     match setitem request_data (lit "stream") (JBool false) with
     | Raise e => (Raise e, w1)
     | Ret request_data' =>
         bind (perform "POST" (path req) (headers req) None (Some request_data'))
           handle w1
     end).
Proof.
  intros Hh Hi Hr Hd Hj. unfold do_POST, bind at 1, lift at 1. rewrite Hh, Hi.
  unfold bind at 1, emit at 1. unfold bind at 1, lift at 1. rewrite Hr, Hd, Hj.
  unfold bind at 1, lift at 1.
  destruct (setitem request_data (lit "stream") (JBool false)); reflexivity.
Qed.

(** X1: a GET on any path other than [/v1/models], compared as it is
    sent (query string and trailing slash included), is answered with the
    one error 404 and the backend is not called. *)
Theorem get_other_path_not_found req w :
  path req <> "/v1/models" ->
  do_GET requests_request self_config req w =
    (Ret tt, {| clock := clock w; trace := trace w ++ [SendError 404 "Not Found"] |}).
Proof.
  intros Hp. unfold do_GET.
  destruct (String.eqb_spec (path req) "/v1/models"); [contradiction|reflexivity].
Qed.



(** X4: an answer of the backend with a status from 400 to 599 is false
    under [if response:], so neither handler sends the client anything:
    [handle_response] leaves the world as it is, and the GET ends after its
    call of the backend. *)
Theorem error_status_sends_nothing r w :
  400 <= status_code r < 600 ->
  handle_response json_dumps response_json self_config (Some r) w = (Ret tt, w) /\
  (forall req,
     path req = "/v1/models" ->
     requests_request (outbound_call self_config "GET" (path req) (headers req) None None)
     = inl r ->
     do_GET requests_request self_config req w =
       (Ret tt,
        {| clock := clock w;
           trace := trace w
                    ++ [RequestsRequest
                          (outbound_call self_config "GET" (path req) (headers req)
                             None None)] |})).
Proof.
  intros Hs.
  assert (Hok : response_ok r = false).
  { unfold response_ok.
    destruct (Z.leb_spec 400 (status_code r)); [|lia].
    destruct (Z.ltb_spec (status_code r) 600); [reflexivity|lia]. }
  split.
  - unfold handle_response. now rewrite Hok.
  - intros req Hp Hr. unfold do_GET.
    destruct (String.eqb_spec (path req) "/v1/models") as [_|Hne]; [|contradiction].
    unfold bind at 1. rewrite (perform_request_answer _ _ _ _ _ _ _ Hr).
    now rewrite Hok.
Qed.

(** X5: a run of [do_POST] calls the backend at most once; when it does,
    the body was a JSON object, and the call is a POST to the target URL
    followed by the path, carrying as JSON the object with ["stream"] set to
    [False] and every other key as the client sent it. *)
Theorem post_calls_backend_at_most_once req w :
  exists events,
    events_of_run w (snd (post req w)) events /\
    (backend_calls events = [] \/
     exists v n bytes text kv sent,
       header_get (headers req) "Content-Length" = Some v /\
       py_int v = Some n /\
       rfile_read (rfile req) n = Ret bytes /\
       decode_utf8 bytes = Some text /\
       json_loads text = Loaded (JObj kv) /\
       backend_calls events
       = [{| bc_method := "POST";
             bc_url := _get_target_url self_config ++ path req;
             bc_headers := bc_headers (call_of "POST" (path req) (headers req) None None);
             bc_data := None;
             bc_json := Some (JObj sent);
             bc_verify := bc_verify (call_of "POST" (path req) (headers req) None None);
             bc_timeout := _get_request_timeout self_config |}] /\
       lookup (lit "stream") sent = Some (JBool false) /\
       (forall k, k <> lit "stream" -> lookup k sent = lookup k kv)).
Proof.
  unfold events_of_run.
  pose proof (do_POST_unparsed py_int decode_utf8 json_loads json_dumps response_json
                requests_request self_config req w) as H.
  assert (Hsame : trace w = trace w ++ []) by now rewrite app_nil_r.
  destruct (header_get (headers req) "Content-Length") as [v|] eqn:Hh.
  2: { rewrite H. exists []. split; [exact Hsame|now left]. }
  destruct (py_int v) as [n|] eqn:Hi.
  2: { rewrite H. exists []. split; [exact Hsame|now left]. }
  cbv zeta in H.
  destruct (rfile_read (rfile req) n) as [bytes|e] eqn:Hr.
  2: { rewrite H. exists [RfileRead n]. split; [reflexivity|now left]. }
  destruct (decode_utf8 bytes) as [text|] eqn:Hd.
  2: { rewrite H. exists [RfileRead n]. split; [reflexivity|now left]. }
  destruct (json_loads text) as [request_data| |e] eqn:Hj.
  2: { rewrite H. eexists. split; [reflexivity|now left]. }
  2: { rewrite H. exists [RfileRead n]. split; [reflexivity|now left]. }
  clear H. rewrite (do_POST_parsed req w v n bytes text request_data Hh Hi Hr Hd Hj).
  cbv zeta.
  destruct request_data as [| | | | | |kv];
    try (exists [RfileRead n]; split; [reflexivity|now left]).
  cbn [setitem]. set (sent := set_item kv (lit "stream") (JBool false)).
  set (call := call_of "POST" (path req) (headers req) None (Some (JObj sent))).
  unfold bind.
  destruct (requests_request call) as [r|e] eqn:Hb.
  - rewrite (perform_request_answer _ _ _ _ _ _ _ Hb). cbv beta iota.
    match goal with
    | |- context [handle_response _ _ _ ?res ?w0] =>
        destruct (handle_response_quiet res w0) as (events & Hev & Hquiet)
    end.
    rewrite Hev. cbn [clock trace]. fold call.
    exists ([RfileRead n] ++ [RequestsRequest call] ++ events).
    split; [now rewrite <- !app_assoc|]. right.
    exists v, n, bytes, text, kv, sent.
    repeat split; try reflexivity; try assumption.
    + rewrite !backend_calls_app, Hquiet. reflexivity.
    + apply lookup_set_item.
    + apply lookup_set_item.
  - destruct (perform_request_fault requests_request self_config _ _ _ _ _ e
                {| clock := clock w; trace := trace w ++ [RfileRead n] |} Hb)
      as [message Hrun].
    fold call in Hrun. rewrite Hrun. cbv beta iota. cbn [handle_response ret snd trace].
    exists ([RfileRead n] ++ [RequestsRequest call;
                               SendError (status_by_class (raised_class e)) message]).
    split; [now rewrite <- !app_assoc|]. right.
    exists v, n, bytes, text, kv, sent.
    repeat split; try reflexivity; try assumption.
    + apply lookup_set_item.
    + apply lookup_set_item.
Qed.

(** X6: a body that is JSON but not an object (a list, a string, a number,
    [true], [null]) cannot take the item ["stream"]: the handler raises
    [TypeError] after reading the body, with no response sent and the
    backend not called. *)
Theorem non_dict_body_raises req w v n bytes text request_data :
  header_get (headers req) "Content-Length" = Some v ->
  py_int v = Some n ->
  rfile_read (rfile req) n = Ret bytes ->
  decode_utf8 bytes = Some text ->
  json_loads text = Loaded request_data ->
  is_dict request_data = false ->
  post req w =
    (Raise TypeError, {| clock := clock w; trace := trace w ++ [RfileRead n] |}).
Proof.
  intros Hh Hi Hr Hd Hj Hnd.
  rewrite (do_POST_parsed req w v n bytes text request_data Hh Hi Hr Hd Hj).
  destruct request_data; try discriminate Hnd; reflexivity.
Qed.

(** X7: of the client's headers only [Authorization], [Content-Type] and
    [Accept] can reach the backend, each with a value that is not empty:
    the client's under that name or, when the client has none, the default
    ([application/json], [*/*]); and the certificate setting is looked at
    for a target URL that starts with [https://] only. *)
Theorem outbound_headers_limited method path headers data json_data :
  Forall (fun kv =>
            In (fst kv) ["Authorization"; "Content-Type"; "Accept"] /\
            snd kv <> "" /\
            (header_get headers (fst kv) = Some (snd kv) \/
             header_get headers (fst kv) = None /\
             In kv [("Content-Type", "application/json"); ("Accept", "*/*")]))
    (bc_headers (call_of method path headers data json_data)) /\
  (startswith (_get_target_url self_config) "https://" = false ->
   bc_verify (call_of method path headers data json_data) = VerifyBool true).
Proof.
  split.
  - unfold outbound_call. cbn [bc_headers]. apply Forall_forall. intros [k v] Hin.
    apply filter_In in Hin as [Hin Hne]. cbn [fst snd] in *.
    assert (Hv : v <> "").
    { intros ->. discriminate Hne. }
    unfold header_get_or in Hin.
    destruct Hin as [Heq|[Heq|[Heq|[]]]]; injection Heq as <- <-;
      (split; [cbn; tauto|]); (split; [exact Hv|]).
    + destruct (header_get headers "Authorization"); [now left|now destruct Hv].
    + destruct (header_get headers "Content-Type"); [now left|right; cbn; tauto].
    + destruct (header_get headers "Accept"); [now left|right; cbn; tauto].
  - intros Hs. unfold outbound_call. cbn [bc_verify]. now rewrite Hs.
Qed.


(** X9: on a 200 answer labelled JSON whose body parses, the client is
    sent status 200 and the three headers of the event stream, then, when
    the generator yields its chunks, one event [data: <json.dumps(chunk)>]
    followed by an empty line for each chunk in order, each flushed, and a
    last event [data: [[DONE]]], flushed; when the generator raises, the
    exception leaves the handler with the headers sent and no body. *)
Theorem completion_streamed_as_events r w rd :
  status_code r = 200 ->
  contains (header_get_or (response_headers r) "Content-Type" "") "application/json" = true ->
  response_json (content r) = Loaded rd ->
  exists w',
    match fst (emitter rd w) with
    | Ret chunks =>
        handle (Some r) w = (Ret tt, w') /\
        events_of_run w w'
          (sse_head ++ streamed chunks ++ [Write (sse_event "[DONE]"); Flush])
    | Raise e =>
        handle (Some r) w = (Raise e, w') /\ events_of_run w w' sse_head
    end.
Proof.
  intros Hs Hc Hj.
  assert (Hh : handle (Some r) w = simulate json_dumps response_json self_config r w).
  { unfold handle_response, response_ok. rewrite Hs, Hc. reflexivity. }
  pose proof (simulate_run r w) as Hrun. rewrite Hj in Hrun.
  destruct (fst (emitter rd w)) as [chunks|e];
    eexists; (split; [rewrite Hh; exact Hrun|reflexivity]).
Qed.

End HandlerRuns.

Lemma get_other_path_not_found_witness :
  do_GET (backend_answers text_response) example_config (get_request "/v1/models/")
    (world_at 0)
  = (Ret tt, {| clock := clock (world_at 0); trace := [SendError 404 "Not Found"] |}).
Proof.
  exact (get_other_path_not_found (backend_answers text_response) example_config
           (get_request "/v1/models/") (world_at 0) ltac:(discriminate)).
Defined.



Lemma error_status_sends_nothing_witness :
  handle_response const_dumps example_response_json example_config
    (Some not_found_response) (world_at 0) = (Ret tt, world_at 0).
Proof.
  exact (proj1 (error_status_sends_nothing const_dumps example_response_json
                  (backend_answers not_found_response) example_config
                  not_found_response (world_at 0) ltac:(cbn; lia))).
Defined.

Lemma non_dict_body_raises_witness :
  do_POST example_int example_decode example_loads_list const_dumps example_response_json
    (backend_answers text_response) example_config
    (post_request [("Content-Length", "2")] "[]") (world_at 0)
  = (Raise TypeError, {| clock := clock (world_at 0); trace := [RfileRead 2] |}).
Proof.
  exact (non_dict_body_raises example_int example_decode example_loads_list const_dumps
           example_response_json (backend_answers text_response) example_config
           (post_request [("Content-Length", "2")] "[]") (world_at 0)
           "2" 2 "[]" (lit "[]") (JArr []) eq_refl eq_refl eq_refl eq_refl eq_refl eq_refl).
Defined.


Lemma completion_streamed_as_events_witness :
  exists w',
    handle_response const_dumps example_response_json example_config
      (Some empty_object_response) (world_at 0) = (Ret tt, w') /\
    events_of_run (world_at 0) w'
      (sse_head
       ++ [Write (sse_event "{}"); Flush; Write (sse_event "{}"); Flush]
       ++ [Write (sse_event "[DONE]"); Flush]).
Proof.
  exact (completion_streamed_as_events const_dumps example_response_json example_config
           empty_object_response (world_at 0) (JObj []) eq_refl eq_refl eq_refl).
Defined.
